(** * AdaScale controller of [automl/autoscaler.py]: a shallow embedding

    The development follows the Python class [AdaScale]
    (src/autoscaler/src/automl/autoscaler.py).  Numbers are modelled by
    exact rationals extended with the IEEE specials, the AdaScale entry
    of the optimizer state by an insertion-ordered dictionary, and the
    methods by a state-and-exception monad over the controller object, in
    which the object keeps every mutation made before a [raise]. *)

From Stdlib Require Import ZArith QArith Qround List String Bool Lia.
Import ListNotations.

Local Open Scope Z_scope.

(** ** Floating-point values, without rounding

    [fnum] is a float64 (Python [float], [np.float64], an element of a
    numpy or torch vector) read exactly: a finite value is a rational, and
    the three specials behave as IEEE-754 prescribes.  Rounding, overflow
    and the sign of zero are not modelled. *)

Inductive fnum : Type :=
| Fin (q : Q)
| PInf
| NInf
| NaN.

Definition of_Z (z : Z) : fnum := Fin (inject_Z z).

Definition Qsgn (q : Q) : Z := Z.sgn (Qnum q).

Definition inf_of_sign (s : Z) : fnum :=
  match s with
  | Z0 => NaN
  | Zpos _ => PInf
  | Zneg _ => NInf
  end.

(** Sign of a value that is not NaN. *)
Definition fsgn (x : fnum) : Z :=
  match x with
  | Fin q => Qsgn q
  | PInf => 1
  | NInf => -1
  | NaN => 0
  end.

Definition fisnan (x : fnum) : bool :=
  match x with NaN => true | _ => false end.

Definition fisinf (x : fnum) : bool :=
  match x with PInf | NInf => true | _ => false end.

Definition fneg (x : fnum) : fnum :=
  match x with
  | Fin q => Fin (- q)
  | PInf => NInf
  | NInf => PInf
  | NaN => NaN
  end.

Definition fadd (x y : fnum) : fnum :=
  match x, y with
  | NaN, _ | _, NaN => NaN
  | Fin a, Fin b => Fin (a + b)
  | PInf, NInf | NInf, PInf => NaN
  | PInf, _ | _, PInf => PInf
  | NInf, _ | _, NInf => NInf
  end.

Definition fsub (x y : fnum) : fnum := fadd x (fneg y).

Definition fmul (x y : fnum) : fnum :=
  match x, y with
  | NaN, _ | _, NaN => NaN
  | Fin a, Fin b => Fin (a * b)
  | _, _ => inf_of_sign (fsgn x * fsgn y)
  end.

(** numpy division: a zero divisor yields an infinity or NaN (with a
    warning), never an exception. *)
Definition fdiv (x y : fnum) : fnum :=
  match x, y with
  | NaN, _ | _, NaN => NaN
  | Fin a, Fin b =>
      if Qeq_bool b 0 then inf_of_sign (Qsgn a) else Fin (a / b)
  | Fin _, _ => Fin 0
  | _, Fin b => if Qeq_bool b 0 then x else inf_of_sign (fsgn x * Qsgn b)
  | _, _ => NaN
  end.

(** Comparisons: every comparison with NaN is false. *)
Definition fltb (x y : fnum) : bool :=
  match x, y with
  | NaN, _ | _, NaN => false
  | Fin a, Fin b => negb (Qle_bool b a)
  | NInf, NInf | PInf, _ | _, NInf => false
  | NInf, _ | _, PInf => true
  end.

Definition fleb (x y : fnum) : bool :=
  match x, y with
  | NaN, _ | _, NaN => false
  | Fin a, Fin b => Qle_bool a b
  | NInf, _ | _, PInf => true
  | PInf, _ | _, NInf => false
  end.

Definition fgtb (x y : fnum) : bool := fltb y x.

(** [np.maximum]: propagates NaN. *)
Definition fmax (x y : fnum) : fnum :=
  match x, y with
  | NaN, _ | _, NaN => NaN
  | _, _ => if fltb x y then y else x
  end.

Definition ffloor (x : fnum) : fnum :=
  match x with
  | Fin q => Fin (inject_Z (Qfloor q))
  | _ => x
  end.

(** Equality of floats as [==] sees it (NaN equals nothing). *)
Definition feq (x y : fnum) : Prop :=
  match x, y with
  | Fin a, Fin b => (a == b)%Q
  | PInf, PInf | NInf, NInf => True
  | _, _ => False
  end.

Definition feqb (x y : fnum) : bool :=
  match x, y with
  | Fin a, Fin b => Qeq_bool a b
  | PInf, PInf | NInf, NInf => true
  | _, _ => false
  end.

Definition is_finite (x : fnum) : Prop :=
  match x with Fin _ => True | _ => False end.

(** [np.sum] of a vector. *)
Definition np_sum (a : list fnum) : fnum := fold_left fadd a (Fin 0).

Definition np_ones (n : nat) : list fnum := repeat (Fin 1) n.
Definition np_zeros (n : nat) : list fnum := repeat (Fin 0) n.

(** ** Python values, exceptions and dictionaries

    An [AssertionError] carries the line of its [assert] statement in
    autoscaler.py and the message. *)

Inductive exn : Type :=
| AssertionError (line : Z) (msg : string)
| KeyError (key : string)
| IndexError
| TypeError
| ValueError
| OverflowError
| ZeroDivisionError
| NotImplementedError.

Inductive res (A : Type) : Type :=
| Ok (a : A)
| Raise (e : exn).

Arguments Ok {A} a.
Arguments Raise {A} e.

(** The values held by the AdaScale state: a Python int (the scale), a
    float (the step counter, the initial [gns_avg]) or a numpy vector. *)
Inductive pyval : Type :=
| VInt (z : Z)
| VFloat (x : fnum)
| VArr (a : list fnum).

(** A Python [dict] with string keys.  Iteration follows insertion order,
    and assigning to a key that is present keeps its position. *)
Definition dict : Type := list (string * pyval).

Fixpoint dict_get (k : string) (d : dict) : option pyval :=
  match d with
  | [] => None
  | (k', v) :: d' => if String.eqb k k' then Some v else dict_get k d'
  end.

Fixpoint dict_set (k : string) (v : pyval) (d : dict) : dict :=
  match d with
  | [] => [(k, v)]
  | (k', v') :: d' =>
      if String.eqb k k' then (k', v) :: d' else (k', v') :: dict_set k v d'
  end.

Definition dict_mem (k : string) (d : dict) : bool :=
  match dict_get k d with Some _ => true | None => false end.

Definition dict_keys (d : dict) : list string := map fst d.

(** A value used where numpy expects a vector: scalars are 0-d arrays and
    broadcast. *)
Definition as_arr (v : pyval) : list fnum :=
  match v with
  | VInt z => [of_Z z]
  | VFloat x => [x]
  | VArr a => a
  end.

(** A value used as a scalar; a vector there is outside what the
    controller ever writes under these keys. *)
Definition as_float (v : pyval) : res fnum :=
  match v with
  | VInt z => Ok (of_Z z)
  | VFloat x => Ok x
  | VArr _ => Raise TypeError
  end.

(** Elementwise binary operation with numpy broadcasting between a vector
    and a vector of length one; other length mismatches raise. *)
Definition arr_binop (f : fnum -> fnum -> fnum) (a b : list fnum)
  : res (list fnum) :=
  if Nat.eqb (List.length a) (List.length b) then
    Ok (map (fun p => f (fst p) (snd p)) (combine a b))
  else match a, b with
       | [x], _ => Ok (map (f x) b)
       | _, [y] => Ok (map (fun x => f x y) a)
       | _, _ => Raise ValueError
       end.

Definition arr_scale (k : fnum) (a : list fnum) : list fnum :=
  map (fun x => fmul x k) a.

Definition arr_div (a : list fnum) (k : fnum) : list fnum :=
  map (fun x => fdiv x k) a.

(** [np.any (a <= 0.)] and [np.any (a < 0.)]. *)
Definition any_le0 (a : list fnum) : bool :=
  existsb (fun x => fleb x (Fin 0)) a.
Definition any_lt0 (a : list fnum) : bool :=
  existsb (fun x => fltb x (Fin 0)) a.

(** Python [int / int]: true division, raising on a zero divisor. *)
Definition int_truediv (a b : Z) : res fnum :=
  if b =? 0 then Raise ZeroDivisionError
  else Ok (Fin (inject_Z a / inject_Z b)).

(** Python [float / x]: raises on a zero divisor. *)
Definition py_div (x y : fnum) : res fnum :=
  match y with
  | Fin b => if Qeq_bool b 0 then Raise ZeroDivisionError else Ok (fdiv x y)
  | _ => Ok (fdiv x y)
  end.

(** Python [int(x)] of a float: truncation towards zero. *)
Definition py_int (x : fnum) : res Z :=
  match x with
  | Fin q => Ok (Z.quot (Qnum q) (Zpos (Qden q)))
  | NaN => Raise ValueError
  | _ => Raise OverflowError
  end.

(** ** The wrapped optimizer and the controller object *)

(** A parameter group of the wrapped optimizer: its learning rate and the
    identities of its tensors. *)
Record ParamGroup : Type := {
  lr : fnum;
  params : list nat
}.

Definition set_lr (x : fnum) (g : ParamGroup) : ParamGroup :=
  {| lr := x; params := params g |}.

(** [self._optimizer]: its [param_groups], the entry
    [state['adascale']] that [_setup] installs, and the per-parameter
    buffers of the base optimizer (opaque to the controller). *)
Record Optimizer : Type := {
  param_groups : list ParamGroup;
  adascale : dict;
  buffers : list fnum
}.

(** The dictionary returned by [optimizer.state_dict()] and accepted by
    [load_state_dict]: [data['state']['adascale']], the other entries of
    [data['state']], and [data['param_groups']]. *)
Record StateDict : Type := {
  sd_adascale : dict;
  sd_buffers : list fnum;
  sd_param_groups : list ParamGroup
}.

(** Attributes fixed by [__init__]. *)
Record Config : Type := {
  _world_size : Z;
  _num_grads_to_accum : Z;
  _num_grad_samples : Z;
  _smoothing : fnum;
  _scale_one_batch_size : Z;
  _scale_one_world_size : Z;
  _scale : Z;
  _max_grad_norm : fnum;
  _batch_size_upper_limit : Z;
  _adjust_grads_for_accumulation : bool;
  _is_adaptive : bool;
  aggressive_schedule : bool;
  has_scaler : bool
}.

(** Attributes written only to be logged. *)
Record Logged : Type := {
  _gain : fnum;
  _var : fnum;
  _sqr : fnum;
  _temperature_ratio : option fnum;
  _temperature : fnum;
  _effective_lr : fnum;
  _clipnorm : fnum;
  _nonsmooth_var : list fnum;
  _nonsmooth_sqr : list fnum;
  total_grad_sqr : list fnum
}.

(** The controller.  [_local_grad_sqr] is the torch vector of the open
    backward window ([None] when no window is open); [local_grad_sqr] is
    the numpy copy of the previous window's sample; [_gain_invalid] is the
    one-element [uint8] flag. *)
Record AdaScale : Type := {
  cfg : Config;
  _optimizer : Optimizer;
  _reset_optimizer_state_on_restart : bool;
  _current_batch_size : Z;
  _real_iterations : Z;
  _local_grad_sqr : option (list fnum);
  _gain_invalid : Z;
  _num_backward_calls : Z;
  _last_final_backward_call : Z;
  local_grad_sqr : option (list fnum);
  log : Logged
}.

Definition set_param_groups (x : list ParamGroup) (o : Optimizer) : Optimizer :=
  {| param_groups := x;
     adascale := adascale o;
     buffers := buffers o |}.

Definition set_adascale (x : dict) (o : Optimizer) : Optimizer :=
  {| param_groups := param_groups o;
     adascale := x;
     buffers := buffers o |}.

Definition set_buffers (x : list fnum) (o : Optimizer) : Optimizer :=
  {| param_groups := param_groups o;
     adascale := adascale o;
     buffers := x |}.

Definition set_gain (x : fnum) (l : Logged) : Logged :=
  {| _gain := x;
     _var := _var l;
     _sqr := _sqr l;
     _temperature_ratio := _temperature_ratio l;
     _temperature := _temperature l;
     _effective_lr := _effective_lr l;
     _clipnorm := _clipnorm l;
     _nonsmooth_var := _nonsmooth_var l;
     _nonsmooth_sqr := _nonsmooth_sqr l;
     total_grad_sqr := total_grad_sqr l |}.

Definition set_var (x : fnum) (l : Logged) : Logged :=
  {| _gain := _gain l;
     _var := x;
     _sqr := _sqr l;
     _temperature_ratio := _temperature_ratio l;
     _temperature := _temperature l;
     _effective_lr := _effective_lr l;
     _clipnorm := _clipnorm l;
     _nonsmooth_var := _nonsmooth_var l;
     _nonsmooth_sqr := _nonsmooth_sqr l;
     total_grad_sqr := total_grad_sqr l |}.

Definition set_sqr (x : fnum) (l : Logged) : Logged :=
  {| _gain := _gain l;
     _var := _var l;
     _sqr := x;
     _temperature_ratio := _temperature_ratio l;
     _temperature := _temperature l;
     _effective_lr := _effective_lr l;
     _clipnorm := _clipnorm l;
     _nonsmooth_var := _nonsmooth_var l;
     _nonsmooth_sqr := _nonsmooth_sqr l;
     total_grad_sqr := total_grad_sqr l |}.

Definition set_temperature_ratio (x : option fnum) (l : Logged) : Logged :=
  {| _gain := _gain l;
     _var := _var l;
     _sqr := _sqr l;
     _temperature_ratio := x;
     _temperature := _temperature l;
     _effective_lr := _effective_lr l;
     _clipnorm := _clipnorm l;
     _nonsmooth_var := _nonsmooth_var l;
     _nonsmooth_sqr := _nonsmooth_sqr l;
     total_grad_sqr := total_grad_sqr l |}.

Definition set_temperature (x : fnum) (l : Logged) : Logged :=
  {| _gain := _gain l;
     _var := _var l;
     _sqr := _sqr l;
     _temperature_ratio := _temperature_ratio l;
     _temperature := x;
     _effective_lr := _effective_lr l;
     _clipnorm := _clipnorm l;
     _nonsmooth_var := _nonsmooth_var l;
     _nonsmooth_sqr := _nonsmooth_sqr l;
     total_grad_sqr := total_grad_sqr l |}.

Definition set_effective_lr (x : fnum) (l : Logged) : Logged :=
  {| _gain := _gain l;
     _var := _var l;
     _sqr := _sqr l;
     _temperature_ratio := _temperature_ratio l;
     _temperature := _temperature l;
     _effective_lr := x;
     _clipnorm := _clipnorm l;
     _nonsmooth_var := _nonsmooth_var l;
     _nonsmooth_sqr := _nonsmooth_sqr l;
     total_grad_sqr := total_grad_sqr l |}.

Definition set_clipnorm (x : fnum) (l : Logged) : Logged :=
  {| _gain := _gain l;
     _var := _var l;
     _sqr := _sqr l;
     _temperature_ratio := _temperature_ratio l;
     _temperature := _temperature l;
     _effective_lr := _effective_lr l;
     _clipnorm := x;
     _nonsmooth_var := _nonsmooth_var l;
     _nonsmooth_sqr := _nonsmooth_sqr l;
     total_grad_sqr := total_grad_sqr l |}.

Definition set_nonsmooth_var (x : list fnum) (l : Logged) : Logged :=
  {| _gain := _gain l;
     _var := _var l;
     _sqr := _sqr l;
     _temperature_ratio := _temperature_ratio l;
     _temperature := _temperature l;
     _effective_lr := _effective_lr l;
     _clipnorm := _clipnorm l;
     _nonsmooth_var := x;
     _nonsmooth_sqr := _nonsmooth_sqr l;
     total_grad_sqr := total_grad_sqr l |}.

Definition set_nonsmooth_sqr (x : list fnum) (l : Logged) : Logged :=
  {| _gain := _gain l;
     _var := _var l;
     _sqr := _sqr l;
     _temperature_ratio := _temperature_ratio l;
     _temperature := _temperature l;
     _effective_lr := _effective_lr l;
     _clipnorm := _clipnorm l;
     _nonsmooth_var := _nonsmooth_var l;
     _nonsmooth_sqr := x;
     total_grad_sqr := total_grad_sqr l |}.

Definition set_total_grad_sqr (x : list fnum) (l : Logged) : Logged :=
  {| _gain := _gain l;
     _var := _var l;
     _sqr := _sqr l;
     _temperature_ratio := _temperature_ratio l;
     _temperature := _temperature l;
     _effective_lr := _effective_lr l;
     _clipnorm := _clipnorm l;
     _nonsmooth_var := _nonsmooth_var l;
     _nonsmooth_sqr := _nonsmooth_sqr l;
     total_grad_sqr := x |}.

Definition set_optimizer (x : Optimizer) (c : AdaScale) : AdaScale :=
  {| cfg := cfg c;
     _optimizer := x;
     _reset_optimizer_state_on_restart := _reset_optimizer_state_on_restart c;
     _current_batch_size := _current_batch_size c;
     _real_iterations := _real_iterations c;
     _local_grad_sqr := _local_grad_sqr c;
     _gain_invalid := _gain_invalid c;
     _num_backward_calls := _num_backward_calls c;
     _last_final_backward_call := _last_final_backward_call c;
     local_grad_sqr := local_grad_sqr c;
     log := log c |}.

Definition set_reset_optimizer_state_on_restart (x : bool) (c : AdaScale) : AdaScale :=
  {| cfg := cfg c;
     _optimizer := _optimizer c;
     _reset_optimizer_state_on_restart := x;
     _current_batch_size := _current_batch_size c;
     _real_iterations := _real_iterations c;
     _local_grad_sqr := _local_grad_sqr c;
     _gain_invalid := _gain_invalid c;
     _num_backward_calls := _num_backward_calls c;
     _last_final_backward_call := _last_final_backward_call c;
     local_grad_sqr := local_grad_sqr c;
     log := log c |}.

Definition set_current_batch_size (x : Z) (c : AdaScale) : AdaScale :=
  {| cfg := cfg c;
     _optimizer := _optimizer c;
     _reset_optimizer_state_on_restart := _reset_optimizer_state_on_restart c;
     _current_batch_size := x;
     _real_iterations := _real_iterations c;
     _local_grad_sqr := _local_grad_sqr c;
     _gain_invalid := _gain_invalid c;
     _num_backward_calls := _num_backward_calls c;
     _last_final_backward_call := _last_final_backward_call c;
     local_grad_sqr := local_grad_sqr c;
     log := log c |}.

Definition set_real_iterations (x : Z) (c : AdaScale) : AdaScale :=
  {| cfg := cfg c;
     _optimizer := _optimizer c;
     _reset_optimizer_state_on_restart := _reset_optimizer_state_on_restart c;
     _current_batch_size := _current_batch_size c;
     _real_iterations := x;
     _local_grad_sqr := _local_grad_sqr c;
     _gain_invalid := _gain_invalid c;
     _num_backward_calls := _num_backward_calls c;
     _last_final_backward_call := _last_final_backward_call c;
     local_grad_sqr := local_grad_sqr c;
     log := log c |}.

Definition set_local_grad_sqr (x : option (list fnum)) (c : AdaScale) : AdaScale :=
  {| cfg := cfg c;
     _optimizer := _optimizer c;
     _reset_optimizer_state_on_restart := _reset_optimizer_state_on_restart c;
     _current_batch_size := _current_batch_size c;
     _real_iterations := _real_iterations c;
     _local_grad_sqr := x;
     _gain_invalid := _gain_invalid c;
     _num_backward_calls := _num_backward_calls c;
     _last_final_backward_call := _last_final_backward_call c;
     local_grad_sqr := local_grad_sqr c;
     log := log c |}.

Definition set_gain_invalid (x : Z) (c : AdaScale) : AdaScale :=
  {| cfg := cfg c;
     _optimizer := _optimizer c;
     _reset_optimizer_state_on_restart := _reset_optimizer_state_on_restart c;
     _current_batch_size := _current_batch_size c;
     _real_iterations := _real_iterations c;
     _local_grad_sqr := _local_grad_sqr c;
     _gain_invalid := x;
     _num_backward_calls := _num_backward_calls c;
     _last_final_backward_call := _last_final_backward_call c;
     local_grad_sqr := local_grad_sqr c;
     log := log c |}.

Definition set_num_backward_calls (x : Z) (c : AdaScale) : AdaScale :=
  {| cfg := cfg c;
     _optimizer := _optimizer c;
     _reset_optimizer_state_on_restart := _reset_optimizer_state_on_restart c;
     _current_batch_size := _current_batch_size c;
     _real_iterations := _real_iterations c;
     _local_grad_sqr := _local_grad_sqr c;
     _gain_invalid := _gain_invalid c;
     _num_backward_calls := x;
     _last_final_backward_call := _last_final_backward_call c;
     local_grad_sqr := local_grad_sqr c;
     log := log c |}.

Definition set_last_final_backward_call (x : Z) (c : AdaScale) : AdaScale :=
  {| cfg := cfg c;
     _optimizer := _optimizer c;
     _reset_optimizer_state_on_restart := _reset_optimizer_state_on_restart c;
     _current_batch_size := _current_batch_size c;
     _real_iterations := _real_iterations c;
     _local_grad_sqr := _local_grad_sqr c;
     _gain_invalid := _gain_invalid c;
     _num_backward_calls := _num_backward_calls c;
     _last_final_backward_call := x;
     local_grad_sqr := local_grad_sqr c;
     log := log c |}.

Definition set_pub_local_grad_sqr (x : option (list fnum)) (c : AdaScale) : AdaScale :=
  {| cfg := cfg c;
     _optimizer := _optimizer c;
     _reset_optimizer_state_on_restart := _reset_optimizer_state_on_restart c;
     _current_batch_size := _current_batch_size c;
     _real_iterations := _real_iterations c;
     _local_grad_sqr := _local_grad_sqr c;
     _gain_invalid := _gain_invalid c;
     _num_backward_calls := _num_backward_calls c;
     _last_final_backward_call := _last_final_backward_call c;
     local_grad_sqr := x;
     log := log c |}.

Definition set_log (x : Logged) (c : AdaScale) : AdaScale :=
  {| cfg := cfg c;
     _optimizer := _optimizer c;
     _reset_optimizer_state_on_restart := _reset_optimizer_state_on_restart c;
     _current_batch_size := _current_batch_size c;
     _real_iterations := _real_iterations c;
     _local_grad_sqr := _local_grad_sqr c;
     _gain_invalid := _gain_invalid c;
     _num_backward_calls := _num_backward_calls c;
     _last_final_backward_call := _last_final_backward_call c;
     local_grad_sqr := local_grad_sqr c;
     log := x |}.

Definition _SAFE_UPDATE_RATIO : fnum := Fin 10.
Definition _MIN_STEPS : Z := 50.

(** ** The monad of methods

    A method maps the object to a result and the object as the method left
    it; a raised exception keeps the mutations made before it. *)

Definition M (A : Type) : Type := AdaScale -> res A * AdaScale.

Definition ret {A : Type} (a : A) : M A := fun c => (Ok a, c).

Definition bind {A B : Type} (m : M A) (k : A -> M B) : M B :=
  fun c =>
    match m c with
    | (Ok a, c') => k a c'
    | (Raise e, c') => (Raise e, c')
    end.

Definition raise {A : Type} (e : exn) : M A := fun c => (Raise e, c).

Definition get : M AdaScale := fun c => (Ok c, c).

Definition modify (f : AdaScale -> AdaScale) : M unit :=
  fun c => (Ok tt, f c).

Definition lift {A : Type} (r : res A) : M A := fun c => (r, c).

Definition assert_ (b : bool) (line : Z) (msg : string) : M unit :=
  if b then ret tt else raise (AssertionError line msg).

Declare Scope m_scope.
Delimit Scope m_scope with m.
Notation "x <- m ;; k" := (bind m (fun x => k))
  (at level 61, m at next level, right associativity) : m_scope.
Notation "m ;; k" := (bind m (fun _ => k))
  (at level 61, right associativity) : m_scope.
Local Open Scope m_scope.

Definition modify_log (f : Logged -> Logged) : M unit :=
  modify (fun c => set_log (f (log c)) c).

(** [self._optimizer.state_dict()['state']['adascale']]: the same
    dictionary object as [self._optimizer.state['adascale']]. *)
Definition adascale_state : M dict :=
  c <- get ;; ret (adascale (_optimizer c)).

Definition put_adascale_state (d : dict) : M unit :=
  modify (fun c => set_optimizer (set_adascale d (_optimizer c)) c).

(** [adascale_state[k]] *)
Definition state_item (k : string) : M pyval :=
  d <- adascale_state ;;
  match dict_get k d with
  | Some v => ret v
  | None => raise (KeyError k)
  end.

(** [adascale_state[k] = v] *)
Definition state_assign (k : string) (v : pyval) : M unit :=
  d <- adascale_state ;; put_adascale_state (dict_set k v d).

(** [adascale_state[name][pg_idx]] or [float(np.sum(adascale_state[name]))] *)
Definition avg_lookup (name : string) (pg_idx : option nat) : M fnum :=
  v <- state_item name ;;
  match pg_idx with
  | Some i =>
      match v with
      | VArr a =>
          match nth_error a i with
          | Some x => ret x
          | None => raise IndexError
          end
      | _ => raise TypeError
      end
  | None => ret (np_sum (as_arr v))
  end.

Definition _grad_sqr_avg (pg_idx : option nat) : M fnum :=
  avg_lookup "grad_sqr_avg" pg_idx.

Definition _grad_var_avg (pg_idx : option nat) : M fnum :=
  avg_lookup "grad_var_avg" pg_idx.

(** Division in [gain] and [scale_invariant_steps]: on Python floats when
    the sums over groups are used, on [np.float64] for one group. *)
Definition avg_div (pg_idx : option nat) (x y : fnum) : M fnum :=
  match pg_idx with
  | None => lift (py_div x y)
  | Some _ => ret (fdiv x y)
  end.

(** ** Methods of [AdaScale] *)

Definition rbind {A B : Type} (r : res A) (k : A -> res B) : res B :=
  match r with
  | Ok a => k a
  | Raise e => Raise e
  end.

(** Python [a % b] on ints. *)
Definition py_mod (a b : Z) : res Z :=
  if b =? 0 then Raise ZeroDivisionError else Ok (a mod b).

(** [s.endswith(suf)] *)
Definition ends_with (suf s : string) : bool :=
  let n := String.length s in
  let m := String.length suf in
  Nat.leb m n && String.eqb (substring (n - m) m s) suf.

(** [v *= f] on a state value: in place on a vector. *)
Definition val_scale (f : fnum) (v : pyval) : pyval :=
  match v with
  | VInt z => VFloat (fmul (of_Z z) f)
  | VFloat x => VFloat (fmul x f)
  | VArr a => VArr (arr_scale f a)
  end.

(** Lines 628-635 of [_final_callback]: the two-branch estimate of the
    gradient variance and of the squared norm, before the clamp. *)
Definition grad_moments (S cN : Z) (local_grad_sqr total_grad_sqr : list fnum)
  : res (list fnum * list fnum) :=
  if 1 <? S then
    rbind (int_truediv S cN) (fun ratio =>
    rbind (arr_binop fsub
             (arr_div (arr_scale ratio local_grad_sqr) (of_Z (cN - 1)))
             (arr_div (arr_scale (of_Z S) total_grad_sqr) (of_Z (cN - 1))))
          (fun grad_var =>
    rbind (arr_binop fsub total_grad_sqr (arr_div grad_var (of_Z S)))
          (fun grad_sqr => Ok (grad_var, grad_sqr))))
  else
    rbind (arr_binop fsub
             (arr_div local_grad_sqr (of_Z (cN - 1)))
             (arr_div (arr_scale (of_Z cN) total_grad_sqr) (of_Z (cN - 1))))
          (fun grad_var =>
    rbind (arr_binop fsub total_grad_sqr (arr_div grad_var (of_Z cN)))
          (fun grad_sqr => Ok (grad_var, grad_sqr))).

(** Lines 628-642: the estimate with [grad_sqr = np.maximum(grad_sqr, 0.0)]. *)
Definition estimator (S cN : Z) (local_grad_sqr total_grad_sqr : list fnum)
  : res (list fnum * list fnum) :=
  rbind (grad_moments S cN local_grad_sqr total_grad_sqr) (fun vs =>
  Ok (fst vs, map (fun x => fmax x (Fin 0)) (snd vs))).

(** The test of lines 644-650 on the estimate. *)
Definition unstable (found_outlier : bool) (grad_var grad_sqr : list fnum)
  : bool :=
  found_outlier
  || any_le0 grad_var
  || any_lt0 grad_sqr
  || fisnan (np_sum grad_var)
  || fisinf (np_sum grad_var)
  || fisnan (np_sum grad_sqr)
  || fisinf (np_sum grad_sqr).

(** The test of lines 620-623 on the two inputs. *)
Definition non_finite (local_grad_sqr total_grad_sqr : list fnum) : bool :=
  fisnan (np_sum local_grad_sqr)
  || fisinf (np_sum local_grad_sqr)
  || fisnan (np_sum total_grad_sqr)
  || fisinf (np_sum total_grad_sqr).

(** [a[0]] on a numpy vector. *)
Definition item0 (a : list fnum) : M fnum :=
  match a with
  | x :: _ => ret x
  | [] => raise IndexError
  end.

(** [torch.optim.Optimizer.load_state_dict]: refuses a checkpoint whose
    groups do not match, and otherwise takes the saved state and the saved
    hyper-parameters, keeping its own tensors. *)
Definition opt_load_state_dict (data : StateDict) (o : Optimizer)
  : res Optimizer :=
  let groups := param_groups o in
  let saved := sd_param_groups data in
  if negb (Nat.eqb (List.length groups) (List.length saved)) then
    Raise ValueError
  else if existsb
            (fun p => negb (Nat.eqb (List.length (params (fst p)))
                                    (List.length (params (snd p)))))
            (combine groups saved) then
    Raise ValueError
  else
    Ok {| param_groups :=
            map (fun p => {| lr := lr (snd p); params := params (fst p) |})
                (combine groups saved);
          adascale := sd_adascale data;
          buffers := sd_buffers data |}.

(** [torch.optim.Optimizer.state_dict] *)
Definition opt_state_dict (o : Optimizer) : StateDict :=
  {| sd_adascale := adascale o;
     sd_buffers := buffers o;
     sd_param_groups := param_groups o |}.

(** The restoring loop at the end of [step]:
    [for lr, param_group in zip(original_lr, self.param_groups)]. *)
Fixpoint restore_lrs (original_lr : list fnum) (groups : list ParamGroup)
  : list ParamGroup :=
  match original_lr, groups with
  | x :: xs, g :: gs => set_lr x g :: restore_lrs xs gs
  | _, _ => groups
  end.

(** [groups[i]["lr"] = x] *)
Fixpoint assign_lr (i : nat) (x : fnum) (groups : list ParamGroup)
  : list ParamGroup :=
  match groups, i with
  | [], _ => []
  | g :: gs, O => set_lr x g :: gs
  | g :: gs, S j => g :: assign_lr j x gs
  end.

Definition window_closed (c : AdaScale) : bool :=
  match _local_grad_sqr c with
  | None => true
  | Some _ => false
  end.

Section Methods.

(** Collaborators outside the controller: numpy's power function, the
    wrapped optimizer's [step] and [zero_grad], and the mixed-precision
    scaler with gradient clipping.  A [step] returns the loss of its
    closure, if any, and the optimizer as it leaves it. *)
Variable np_power : fnum -> fnum -> fnum.
Variable opt_step : Optimizer -> option fnum * Optimizer.
Variable opt_zero_grad : Optimizer -> Optimizer.
Variable scaler_step : Optimizer -> option fnum * Optimizer.
Variable scaler_unscale_ : Optimizer -> Optimizer.
Variable clip_grad_norm_ : fnum -> Optimizer -> fnum * Optimizer.

Definition scale_invariant_steps (pg_idx : option nat) : M fnum :=
  c <- get ;;
  if negb (_gain_invalid c =? 0) then ret (Fin 1)
  else
    var <- _grad_var_avg pg_idx ;;
    sqr <- _grad_sqr_avg pg_idx ;;
    let scale := _scale (cfg c) in
    q <- avg_div pg_idx var (of_Z scale) ;;
    gain <- avg_div pg_idx (fadd var sqr) (fadd q sqr) ;;
    if aggressive_schedule (cfg c) then
      ret (np_power (fmul (of_Z (scale * scale)) gain) (Fin (1 # 3)))
    else ret gain.

Definition gain (pg_idx : option nat) (alpha : fnum) : M fnum :=
  var <- _grad_var_avg pg_idx ;;
  sqr <- _grad_sqr_avg pg_idx ;;
  modify_log (set_var var) ;;
  modify_log (set_sqr sqr) ;;
  c <- get ;;
  if negb (_gain_invalid c =? 0) then
    modify_log (set_gain (Fin 1)) ;;
    ret (Fin 1)
  else
    let max_scale :=
      if _is_adaptive (cfg c) then np_power (of_Z (_scale (cfg c))) alpha
      else of_Z (_scale (cfg c)) in
    q <- avg_div pg_idx var max_scale ;;
    gain <- avg_div pg_idx (fadd var sqr) (fadd q sqr) ;;
    modify_log (set_gain gain) ;;
    ret gain.

Definition _update_avg (name : string) (value : list fnum) (factor : fnum)
  : M unit :=
  d <- adascale_state ;;
  let zeros := np_zeros (List.length value) in
  let biased :=
    match dict_get (name ++ "_biased") d with
    | Some v => as_arr v
    | None => zeros
    end in
  let unbias :=
    match dict_get (name ++ "_unbias") d with
    | Some v => as_arr v
    | None => zeros
    end in
  biased <- lift (arr_binop fadd (map (fmul factor) biased)
                    (map (fmul (fsub (Fin 1) factor)) value)) ;;
  let unbias :=
    map (fun u => fadd (fmul factor u) (fsub (Fin 1) factor)) unbias in
  state_assign (name ++ "_biased") (VArr biased) ;;
  state_assign (name ++ "_unbias") (VArr unbias) ;;
  avg <- lift (arr_binop fdiv biased unbias) ;;
  state_assign name (VArr avg).

(** Lines 557-571 of [_final_callback]: the outlier guard on this
    worker's sample, which then becomes the previous sample. *)
Definition detect_outlier (np_local_grad_sqr : list fnum) : M bool :=
  c <- get ;;
  let prev :=
    match local_grad_sqr c with
    | None => np_local_grad_sqr
    | Some p => p
    end in
  modify (set_pub_local_grad_sqr (Some prev)) ;;
  found_outlier <-
    (if _MIN_STEPS <? _real_iterations c then
       p0 <- item0 prev ;;
       if fgtb p0 (Fin 0) then
         n0 <- item0 np_local_grad_sqr ;;
         ret (fgtb (fdiv n0 p0) _SAFE_UPDATE_RATIO)
       else ret false
     else ret false) ;;
  modify (set_pub_local_grad_sqr (Some np_local_grad_sqr)) ;;
  ret found_outlier.

(** Lines 619-654: the flag is cleared, then set again when the inputs or
    the estimate are unusable; the result is [(grad_var, grad_sqr)]. *)
Definition assess (found_outlier : bool) (S cN : Z)
  (local_grad_sqr total_grad_sqr : list fnum) : M (list fnum * list fnum) :=
  modify (fun c => set_gain_invalid (Z.min (_gain_invalid c) 0) c) ;;
  if non_finite local_grad_sqr total_grad_sqr then
    modify (fun c => set_gain_invalid (Z.max (_gain_invalid c) 1) c) ;;
    v <- _grad_var_avg (Some O) ;;
    s <- _grad_sqr_avg (Some O) ;;
    ret ([v], [s])
  else
    vs <- lift (estimator S cN local_grad_sqr total_grad_sqr) ;;
    (if unstable found_outlier (fst vs) (snd vs) then
       modify (set_gain_invalid 1)
     else ret tt) ;;
    ret vs.

(** Lines 573-598: the reduced local sum and the total squared norm, each
    adjusted for gradient accumulation.  [reduced] is the content of
    [self._local_grad_sqr] once the all-reduce has been waited for, and
    [total] the value of [self._total_grad_sqr()]. *)
Definition reduced_local (k : Config) (window reduced : list fnum)
  : list fnum :=
  let local_grad_sqr := if 1 <? _world_size k then reduced else window in
  if negb (_adjust_grads_for_accumulation k) then
    arr_scale (of_Z (_num_grads_to_accum k ^ 2)) local_grad_sqr
  else local_grad_sqr.

Definition adjusted_total (k : Config) (total : list fnum) : list fnum :=
  if (1 <? _num_grads_to_accum k) && _adjust_grads_for_accumulation k then
    arr_div total (of_Z (_num_grads_to_accum k ^ 2))
  else total.

(** [_final_callback] once the accumulation count is reached (from line
    552 on); [window] is the content of [self._local_grad_sqr] before the
    all-reduce. *)
Definition finalize (window reduced total : list fnum) : M unit :=
  found_outlier <- detect_outlier window ;;
  c <- get ;;
  let total_grad_sqr := adjusted_total (cfg c) total in
  modify_log (set_total_grad_sqr total_grad_sqr) ;;
  let local_grad_sqr := reduced_local (cfg c) window reduced in
  vs <- assess found_outlier (_scale (cfg c)) (_num_grad_samples (cfg c))
          local_grad_sqr total_grad_sqr ;;
  modify_log (set_nonsmooth_var (fst vs)) ;;
  modify_log (set_nonsmooth_sqr (snd vs)) ;;
  c' <- get ;;
  (if _gain_invalid c' =? 0 then
     _update_avg "grad_sqr_avg" (snd vs) (_smoothing (cfg c)) ;;
     _update_avg "grad_var_avg" (fst vs) (_smoothing (cfg c))
   else ret tt) ;;
  modify (fun c => set_last_final_backward_call 0 (set_num_backward_calls 0 c)) ;;
  modify (set_local_grad_sqr None).

Definition _final_callback (reduced total : list fnum) : M unit :=
  c <- get ;;
  match _local_grad_sqr c with
  | None =>
      raise (AssertionError 543
               "isinstance(self._local_grad_sqr, torch.Tensor)")
  | Some window =>
      modify (set_num_backward_calls (_num_backward_calls c + 1)) ;;
      let calls := _num_backward_calls c + 1 - _last_final_backward_call c in
      assert_ (calls <=? _num_grads_to_accum (cfg c)) 546
              "bug: backward calls exceed num_grads_to_accum" ;;
      r <- lift (py_mod calls (_num_grads_to_accum (cfg c))) ;;
      if negb (r =? 0) then ret tt
      else finalize window reduced total
  end.

Definition get_step_increment : M Z :=
  c <- get ;;
  assert_ (window_closed c) 680
          "Don't step without finishing backward phase" ;;
  if negb (_gain_invalid c =? 0) then ret 1
  else
    v <- state_item "scale_invariant_steps" ;;
    steps <- lift (as_float v) ;;
    let prev_steps := ffloor steps in
    inc <- scale_invariant_steps None ;;
    state_assign "scale_invariant_steps" (VFloat (fadd steps inc)) ;;
    state_assign "scale" (VInt (_scale (cfg c))) ;;
    v' <- state_item "scale_invariant_steps" ;;
    steps' <- lift (as_float v') ;;
    let step_increment := ffloor (fsub steps' prev_steps) in
    modify (fun c => set_real_iterations (_real_iterations c + 1) c) ;;
    lift (py_int step_increment).

(** The body of the first loop of [step] for one group; it returns the
    learning rate appended to [original_lr]. *)
Definition scale_group (pg_idx : nat) : M fnum :=
  c <- get ;;
  match nth_error (param_groups (_optimizer c)) pg_idx with
  | None => raise IndexError
  | Some param_group =>
      let original := lr param_group in
      g <- gain (Some pg_idx) (Fin (1 # 2)) ;;
      let scaled := fmul g original in
      modify (fun c =>
        set_optimizer
          (set_param_groups
             (assign_lr pg_idx scaled (param_groups (_optimizer c)))
             (_optimizer c)) c) ;;
      (if Nat.eqb pg_idx 0 then
         modify_log (set_effective_lr scaled) ;;
         c <- get ;;
         curr <- lift (py_div original (of_Z (_current_batch_size c))) ;;
         match _temperature_ratio (log c) with
         | None => modify_log (set_temperature_ratio (Some curr))
         | Some ratio =>
             q <- lift (py_div curr ratio) ;;
             modify_log (fun l => set_temperature (fmul (_temperature l) q) l) ;;
             modify_log (set_temperature_ratio (Some curr))
         end
       else ret tt) ;;
      ret original
  end.

Fixpoint scale_groups (idxs : list nat) : M (list fnum) :=
  match idxs with
  | [] => ret []
  | pg_idx :: rest =>
      original <- scale_group pg_idx ;;
      originals <- scale_groups rest ;;
      ret (original :: originals)
  end.

Definition step : M (option fnum) :=
  c <- get ;;
  assert_ (window_closed c) 713
          "Don't step without finishing backward phase" ;;
  original_lr <-
    scale_groups (seq 0 (List.length (param_groups (_optimizer c)))) ;;
  modify_log (set_clipnorm (Fin 0)) ;;
  res <-
    (if has_scaler (cfg c) then
       (if fgtb (_max_grad_norm (cfg c)) (Fin 0) then
          modify (fun c =>
            set_optimizer (scaler_unscale_ (_optimizer c)) c) ;;
          c <- get ;;
          let clipped := clip_grad_norm_ (_max_grad_norm (cfg c)) (_optimizer c) in
          modify (set_optimizer (snd clipped)) ;;
          modify_log (set_clipnorm (fst clipped))
        else ret tt) ;;
       c <- get ;;
       let stepped := scaler_step (_optimizer c) in
       modify (set_optimizer (snd stepped)) ;;
       ret (fst stepped)
     else
       c <- get ;;
       let stepped := opt_step (_optimizer c) in
       modify (set_optimizer (snd stepped)) ;;
       ret None) ;;
  modify (fun c =>
    set_optimizer
      (set_param_groups
         (restore_lrs original_lr (param_groups (_optimizer c)))
         (_optimizer c)) c) ;;
  ret res.

(** The loop of [add_param_group] over [adascale_state.keys()]. *)
Fixpoint extend_states (names : list string) : M unit :=
  match names with
  | [] => ret tt
  | name :: rest =>
      assert_ (String.prefix "grad_sqr_avg" name
               || String.prefix "grad_var_avg" name) 761 name ;;
      (if ends_with "_count" name then
         v <- state_item name ;;
         assert_ (match v with
                  | VArr [_] => true
                  | _ => false
                  end) 764 "shape"
       else
         let val := if String.eqb name "grad_sqr_avg" then Fin 1 else Fin 0 in
         v <- state_item name ;;
         state_assign name (VArr (as_arr v ++ [val])) ;;
         c <- get ;;
         assert_ (Nat.eqb (List.length (as_arr v ++ [val]))
                          (List.length (param_groups (_optimizer c))))
                 769 "shape") ;;
      extend_states rest
  end.

(** The hooks that [unhook] and [_hook] re-register carry no state of
    their own here. *)
Definition add_param_group (pg : ParamGroup) : M unit :=
  c <- get ;;
  assert_ (window_closed c) 753 "Can't add parameter group during backward" ;;
  modify (fun c =>
    set_optimizer
      (set_param_groups (param_groups (_optimizer c) ++ [pg]) (_optimizer c))
      c) ;;
  d <- adascale_state ;;
  extend_states (dict_keys d).

Definition zero_grad : M unit :=
  c <- get ;;
  assert_ (window_closed c) 774 "Don't zero_grad in backward" ;;
  modify (fun c => set_optimizer (opt_zero_grad (_optimizer c)) c).

Definition state_dict : M StateDict :=
  c <- get ;;
  assert_ (window_closed c) 786 "Don't checkpoint in backward" ;;
  ret (opt_state_dict (_optimizer c)).

Definition _adjust_variance (prev_scale : fnum) : M unit :=
  d <- adascale_state ;;
  if dict_mem "grad_var_avg_biased" d then
    c <- get ;;
    adjust_factor <- lift (py_div prev_scale (of_Z (_scale (cfg c)))) ;;
    biased <- state_item "grad_var_avg_biased" ;;
    state_assign "grad_var_avg_biased" (val_scale adjust_factor biased) ;;
    avg <- state_item "grad_var_avg" ;;
    state_assign "grad_var_avg" (val_scale adjust_factor avg)
  else ret tt.

Definition is_avg_key (k : string) : bool :=
  String.eqb k "grad_sqr_avg" || String.eqb k "grad_var_avg".

(** The copying loop of [load_state_dict] over
    [data['state']['adascale'].items()]. *)
Fixpoint copy_items (items : list (string * pyval)) : M unit :=
  match items with
  | [] => ret tt
  | (k, v) :: rest =>
      c <- get ;;
      (if _reset_optimizer_state_on_restart c && is_avg_key k then ret tt
       else state_assign k v) ;;
      copy_items rest
  end.

(** After the copying loop the state holds the very vectors of [data], so
    the in-place [*=] of [_adjust_variance] shows in [data] as well: a
    vector of [data] that the loop copied takes the state's value. *)
Definition share_key (reset : bool) (state : dict) (k : string) (d : dict)
  : dict :=
  match dict_get k d, dict_get k state with
  | Some (VArr _), Some v =>
      if reset && is_avg_key k then d else dict_set k v d
  | _, _ => d
  end.

Definition shared_after_adjust (reset : bool) (state : dict) (data : StateDict)
  : StateDict :=
  {| sd_adascale :=
       share_key reset state "grad_var_avg"
         (share_key reset state "grad_var_avg_biased" (sd_adascale data));
     sd_buffers := sd_buffers data;
     sd_param_groups := sd_param_groups data |}.

(** [load_state_dict]; the method returns [None], and the model returns
    the caller's [data] as the call leaves it. *)
Definition load_state_dict (data : StateDict) : M StateDict :=
  v <- state_item "scale" ;;
  prev_scale <- lift (as_float v) ;;
  c <- get ;;
  let same := feqb prev_scale (of_Z (_scale (cfg c))) in
  (if same then modify (set_reset_optimizer_state_on_restart false)
   else ret tt) ;;
  c <- get ;;
  assert_ (window_closed c) 804 "Don't load checkpoint in backward" ;;
  copy_items (sd_adascale data) ;;
  data <-
    (if negb same then
       _adjust_variance prev_scale ;;
       d <- adascale_state ;;
       ret (shared_after_adjust (_reset_optimizer_state_on_restart c) d data)
     else ret data) ;;
  if _reset_optimizer_state_on_restart c then ret data
  else
    c <- get ;;
    o <- lift (opt_load_state_dict data (_optimizer c)) ;;
    modify (set_optimizer o) ;;
    ret data.

End Methods.

(** ** Construction *)

(** The fields of [AutoScalerConfig] that the modelled methods read. *)
Record AutoScalerConfig : Type := {
  cfg_world_size : Z;
  cfg_update_interval : Z;
  cfg_smoothing : option fnum;
  cfg_scale_one_batch_size : Z;
  cfg_scale_one_world_size : Z;
  cfg_max_grad_norm : fnum;
  cfg_batch_size_upper_limit : Z;
  cfg_is_adaptive : bool;
  cfg_aggressive_schedule : bool;
  cfg_reset_optimizer_state_on_restart : bool;
  cfg_adjust_gradients_for_accumulation : bool;
  cfg_gradient_accumulation_supported : bool
}.

(** [_setup]: the defaults of the run state.  [existing] is the entry
    ['adascale'] the optimizer state may already hold ([setdefault]). *)
Definition _setup (k : Config) (reset : bool) (batch : Z)
  (groups : list ParamGroup) (bufs : list fnum) (existing : option dict)
  : AdaScale :=
  let n := List.length groups in
  {| cfg := k;
     _optimizer :=
       {| param_groups := groups;
          adascale :=
            match existing with
            | Some d => d
            | None =>
                [("scale_invariant_steps"%string, VFloat (Fin 0));
                 ("gns_avg"%string, VFloat (Fin 0));
                 ("grad_sqr_avg"%string, VArr (np_ones n));
                 ("grad_var_avg"%string, VArr (np_zeros n));
                 ("scale"%string, VInt (_scale k))]
            end;
          buffers := bufs |};
     _reset_optimizer_state_on_restart := reset;
     _current_batch_size := batch;
     _real_iterations := 0;
     _local_grad_sqr := None;
     _gain_invalid := 1;
     _num_backward_calls := 0;
     _last_final_backward_call := 0;
     local_grad_sqr := None;
     log :=
       {| _gain := Fin 1;
          _var := Fin 0;
          _sqr := Fin 0;
          _temperature_ratio := None;
          _temperature := Fin 1;
          _effective_lr := Fin 0;
          _clipnorm := Fin 0;
          _nonsmooth_var := [];
          _nonsmooth_sqr := [];
          total_grad_sqr := [] |} |}.

(** [__init__].  [dist_world_size] is [dist.get_world_size()] when the
    process group is initialised, [scaler] tells whether a scaler was
    given. *)
Definition init (k : AutoScalerConfig) (num_grads_to_accum : Z)
  (scaler : bool) (dist_world_size : option Z)
  (groups : list ParamGroup) (bufs : list fnum) (existing : option dict)
  : res AdaScale :=
  let world_size :=
    if negb (cfg_world_size k =? 0) then cfg_world_size k
    else match dist_world_size with
         | Some w => w
         | None => 1
         end in
  if 1 <? cfg_update_interval k then Raise NotImplementedError
  else
    let accum :=
      if cfg_gradient_accumulation_supported k then num_grads_to_accum
      else 1 in
    let samples := world_size * accum in
    if negb (1 <? samples) then
      Raise (AssertionError 89
               "AutoScaler needs DDP or gradient accumulation enabled")
    else
      let smoothing :=
        match cfg_smoothing k with
        | Some s => s
        | None =>
            fmax (fsub (Fin 1) (Fin (inject_Z samples / 1000))) (Fin 0)
        end in
      if cfg_scale_one_world_size k =? 0 then Raise ZeroDivisionError
      else
        let scale := samples / cfg_scale_one_world_size k in
        if negb (1 <=? scale) then
          Raise (AssertionError 98
                   "SCALE should be an integer greater than or equal to 1")
        else
          let batch := cfg_scale_one_batch_size k * scale in
          if negb (batch <=? cfg_batch_size_upper_limit k) then
            Raise (AssertionError 107 EmptyString)
          else
            Ok (_setup
                  {| _world_size := world_size;
                     _num_grads_to_accum := accum;
                     _num_grad_samples := samples;
                     _smoothing := smoothing;
                     _scale_one_batch_size := cfg_scale_one_batch_size k;
                     _scale_one_world_size := cfg_scale_one_world_size k;
                     _scale := scale;
                     _max_grad_norm := cfg_max_grad_norm k;
                     _batch_size_upper_limit := cfg_batch_size_upper_limit k;
                     _adjust_grads_for_accumulation :=
                       cfg_adjust_gradients_for_accumulation k;
                     _is_adaptive := cfg_is_adaptive k;
                     aggressive_schedule := cfg_aggressive_schedule k;
                     has_scaler := scaler |}
                  (cfg_reset_optimizer_state_on_restart k) batch
                  groups bufs existing).

(** ** Notions used to state the properties *)

(** The divisor of the identity between the moments: [S] in the branch
    [S > 1], [cN] otherwise. *)
Definition identity_divisor (S cN : Z) : Z := if 1 <? S then S else cN.

(** [grad_sqr + grad_var / d == total_grad_sqr], component by component. *)
Definition moments_identity (d : Z) (grad_var grad_sqr total : list fnum)
  : Prop :=
  Forall2 (fun vs t => feq (fadd (snd vs) (fdiv (fst vs) (of_Z d))) t)
          (combine grad_var grad_sqr) total.

(** One component of [grad_var] and of the unclamped [grad_sqr]. *)
Definition var_at (S cN : Z) (l t : fnum) : fnum :=
  if 1 <? S then
    fsub (fdiv (fmul l (Fin (inject_Z S / inject_Z cN))) (of_Z (cN - 1)))
         (fdiv (fmul t (of_Z S)) (of_Z (cN - 1)))
  else
    fsub (fdiv l (of_Z (cN - 1)))
         (fdiv (fmul t (of_Z cN)) (of_Z (cN - 1))).

Definition sqr_at (S cN : Z) (l t : fnum) : fnum :=
  fsub t (fdiv (var_at S cN l t) (of_Z (identity_divisor S cN))).

Definition clamp0 (a : list fnum) : list fnum :=
  map (fun x => fmax x (Fin 0)) a.

(** The assertions [assert self._local_grad_sqr is None] of [step],
    [add_param_group], [zero_grad], [state_dict] and [load_state_dict],
    by their lines. *)
Definition window_assertion_lines : list Z := [713; 753; 774; 786; 804].

Definition is_window_assertion {A : Type} (r : res A) : bool :=
  match r with
  | Raise (AssertionError line _) =>
      existsb (Z.eqb line) window_assertion_lines
  | _ => false
  end.

(** [keeps p m]: the method [m] leaves the part [p] of the object as it
    was, whether it returns or raises. *)
Definition keeps {A X : Type} (p : AdaScale -> X) (m : M A) : Prop :=
  forall c r c', m c = (r, c') -> p c' = p c.

(** [quiet m]: whatever [m] raises, it is not one of the window
    assertions. *)
Definition quiet {A : Type} (m : M A) : Prop :=
  forall c r c', m c = (r, c') -> is_window_assertion r = false.

(** A method that starts with [assert self._local_grad_sqr is None]. *)
Definition guarded {A : Type} (line : Z) (msg : string)
  (body : AdaScale -> M A) : M A :=
  c <- get ;; assert_ (window_closed c) line msg ;; body c.

(** ** Sample objects

    A two-worker run at scale one and a four-worker run at scale two over
    an optimizer with one parameter group, with collaborators that leave
    the optimizer as it is. *)

Definition sample_power : fnum -> fnum -> fnum := fun x _ => x.
Definition sample_opt_step : Optimizer -> option fnum * Optimizer :=
  fun o => (Some (Fin 7), o).
Definition sample_zero_grad : Optimizer -> Optimizer := fun o => o.
Definition sample_scaler_step : Optimizer -> option fnum * Optimizer :=
  fun o => (None, o).
Definition sample_unscale_ : Optimizer -> Optimizer := fun o => o.
Definition sample_clip : fnum -> Optimizer -> fnum * Optimizer :=
  fun _ o => (Fin 0, o).

Definition sample_yaml (world : Z) : AutoScalerConfig :=
  {| cfg_world_size := world;
     cfg_update_interval := 1;
     cfg_smoothing := Some (Fin (1 # 2));
     cfg_scale_one_batch_size := 32;
     cfg_scale_one_world_size := 2;
     cfg_max_grad_norm := Fin 0;
     cfg_batch_size_upper_limit := 1024;
     cfg_is_adaptive := false;
     cfg_aggressive_schedule := false;
     cfg_reset_optimizer_state_on_restart := false;
     cfg_adjust_gradients_for_accumulation := true;
     cfg_gradient_accumulation_supported := false |}.

Definition sample_group : ParamGroup :=
  {| lr := Fin (1 # 10); params := [O] |}.

Definition sample_config (world : Z) : Config :=
  {| _world_size := world;
     _num_grads_to_accum := 1;
     _num_grad_samples := world;
     _smoothing := Fin (1 # 2);
     _scale_one_batch_size := 32;
     _scale_one_world_size := 2;
     _scale := world / 2;
     _max_grad_norm := Fin 0;
     _batch_size_upper_limit := 1024;
     _adjust_grads_for_accumulation := true;
     _is_adaptive := false;
     aggressive_schedule := false;
     has_scaler := false |}.

(** The controller that [__init__] builds on [world] workers. *)
Definition fresh (world : Z) : AdaScale :=
  _setup (sample_config world) false (32 * (world / 2)) [sample_group] [] None.

(** A backward window opened on a fresh controller by the first hook. *)
Definition mid_backward : AdaScale :=
  set_local_grad_sqr (Some [Fin 9]) (fresh 2).


(** The same with a positive previous sample. *)
Definition after_unit_sample : AdaScale :=
  set_local_grad_sqr (Some [Fin 11])
    (set_pub_local_grad_sqr (Some [Fin 1])
       (set_real_iterations 51 (set_gain_invalid 0 (fresh 2)))).

(** A checkpoint written at scale four. *)
Definition checkpoint_scale4 : StateDict :=
  {| sd_adascale :=
       [("scale_invariant_steps"%string, VFloat (Fin 100));
        ("gns_avg"%string, VFloat (Fin 0));
        ("grad_sqr_avg"%string, VArr [Fin 3]);
        ("grad_var_avg"%string, VArr [Fin 8]);
        ("scale"%string, VInt 4);
        ("grad_sqr_avg_biased"%string, VArr [Fin (3 # 2)]);
        ("grad_sqr_avg_unbias"%string, VArr [Fin (1 # 2)]);
        ("grad_var_avg_biased"%string, VArr [Fin 4]);
        ("grad_var_avg_unbias"%string, VArr [Fin (1 # 2)])];
     sd_buffers := [];
     sd_param_groups := [sample_group] |}.

(** A wrapped optimizer whose [step] records, in its buffers, the learning
    rates it runs with, and returns the loss 7 of its closure. *)
Definition recording_opt_step : Optimizer -> option fnum * Optimizer :=
  fun o => (Some (Fin 7), set_buffers (map lr (param_groups o)) o).

(** A controller at scale two with a valid last sample and the moving
    averages [grad_sqr_avg = 3] and [grad_var_avg = 8]. *)
Definition valid_at_scale2 : AdaScale :=
  set_gain_invalid 0
    (_setup (sample_config 4) false 64 [sample_group] []
       (Some (sd_adascale checkpoint_scale4))).

(** * Properties *)

(** ** Rational arithmetic behind the float operations *)

Lemma Qeq_bool_inject_Z (z : Z) : z <> 0 -> Qeq_bool (inject_Z z) 0 = false.
Proof.
  intros H. destruct (Qeq_bool (inject_Z z) 0) eqn:E; [|reflexivity].
  apply Qeq_bool_eq in E. unfold Qeq, inject_Z in E. simpl in E. lia.
Qed.

Lemma fdiv_fin (a : Q) (z : Z) :
  z <> 0 -> fdiv (Fin a) (of_Z z) = Fin (a / inject_Z z).
Proof.
  intros H. unfold fdiv, of_Z. now rewrite Qeq_bool_inject_Z.
Qed.

(** ** The moment estimator *)

Lemma arr_binop_same (f : fnum -> fnum -> fnum) (a b : list fnum) :
  List.length a = List.length b ->
  arr_binop f a b = Ok (map (fun p => f (fst p) (snd p)) (combine a b)).
Proof.
  intros H. unfold arr_binop. now rewrite H, Nat.eqb_refl.
Qed.

Lemma var_list_scaled (r s k : fnum) (local total : list fnum) :
  map (fun p => fsub (fst p) (snd p))
      (combine (arr_div (arr_scale r local) k) (arr_div (arr_scale s total) k))
  = map (fun p => fsub (fdiv (fmul (fst p) r) k) (fdiv (fmul (snd p) s) k))
        (combine local total).
Proof.
  revert total. induction local as [|x a IH]; intros [|y b]; simpl;
    try reflexivity.
  f_equal. apply IH.
Qed.

Lemma var_list_plain (s k : fnum) (local total : list fnum) :
  map (fun p => fsub (fst p) (snd p))
      (combine (arr_div local k) (arr_div (arr_scale s total) k))
  = map (fun p => fsub (fdiv (fst p) k) (fdiv (fmul (snd p) s) k))
        (combine local total).
Proof.
  revert total. induction local as [|x a IH]; intros [|y b]; simpl;
    try reflexivity.
  f_equal. apply IH.
Qed.

Lemma sqr_list (v : fnum * fnum -> fnum) (d : fnum) (local total : list fnum) :
  List.length local = List.length total ->
  map (fun p => fsub (fst p) (snd p))
      (combine total (arr_div (map v (combine local total)) d))
  = map (fun p => fsub (snd p) (fdiv (v p) d)) (combine local total).
Proof.
  revert total. induction local as [|x a IH]; intros [|y b] H; simpl in *;
    try discriminate; try reflexivity.
  injection H as H. f_equal. now apply IH.
Qed.

Lemma length_var_list (f : fnum * fnum -> fnum) (local total : list fnum) :
  List.length local = List.length total ->
  List.length total = List.length (map f (combine local total)).
Proof.
  intros H. rewrite length_map, length_combine, H. symmetry. apply Nat.min_id.
Qed.

Lemma grad_moments_pointwise (S cN : Z) (local total : list fnum) :
  cN <> 0 -> List.length local = List.length total ->
  grad_moments S cN local total
  = Ok (map (fun p => var_at S cN (fst p) (snd p)) (combine local total),
        map (fun p => sqr_at S cN (fst p) (snd p)) (combine local total)).
Proof.
  intros HcN Hlen.
  unfold grad_moments, sqr_at, var_at, identity_divisor, int_truediv.
  destruct (1 <? S).
  - apply Z.eqb_neq in HcN. rewrite HcN. cbn [rbind].
    rewrite arr_binop_same
      by (unfold arr_div, arr_scale; rewrite !length_map; exact Hlen).
    cbn [rbind]. rewrite var_list_scaled.
    rewrite arr_binop_same
      by (unfold arr_div; rewrite length_map; now apply length_var_list).
    cbn [rbind]. now rewrite sqr_list.
  - rewrite arr_binop_same
      by (unfold arr_div, arr_scale; rewrite !length_map; exact Hlen).
    cbn [rbind]. rewrite var_list_plain.
    rewrite arr_binop_same
      by (unfold arr_div; rewrite length_map; now apply length_var_list).
    cbn [rbind]. now rewrite sqr_list.
Qed.

(** The identity at one finite component, before the clamp. *)
Lemma moments_identity_at (S cN : Z) (l t : Q) :
  1 < cN -> 1 <= S ->
  feq (fadd (sqr_at S cN (Fin l) (Fin t))
            (fdiv (var_at S cN (Fin l) (Fin t)) (of_Z (identity_divisor S cN))))
      (Fin t).
Proof.
  intros HcN HS. unfold sqr_at, var_at, identity_divisor.
  destruct (1 <? S) eqn:ES.
  - cbn [fmul of_Z]. rewrite !fdiv_fin by lia. cbn [fsub fneg fadd].
    rewrite !fdiv_fin by lia. cbn [fsub fneg fadd feq]. ring.
  - cbn [fmul of_Z]. rewrite !fdiv_fin by lia. cbn [fsub fneg fadd].
    rewrite !fdiv_fin by lia. cbn [fsub fneg fadd feq]. ring.
Qed.

Lemma clamp0_nonneg (raw : list fnum) :
  Forall (fun x => fleb (Fin 0) x = true) raw -> clamp0 raw = raw.
Proof.
  induction 1 as [|x raw Hx _ IH]; [reflexivity|].
  unfold clamp0 in *. cbn [map]. rewrite IH. f_equal.
  destruct x as [q| | |]; try discriminate; try reflexivity.
  cbn in Hx |- *. now rewrite Hx.
Qed.

Lemma moments_identity_pointwise (S cN : Z) (local total : list fnum) :
  1 < cN -> 1 <= S -> List.length local = List.length total ->
  Forall is_finite local -> Forall is_finite total ->
  moments_identity (identity_divisor S cN)
    (map (fun p => var_at S cN (fst p) (snd p)) (combine local total))
    (map (fun p => sqr_at S cN (fst p) (snd p)) (combine local total))
    total.
Proof.
  intros HcN HS Hlen Hl. revert total Hlen.
  unfold moments_identity.
  induction Hl as [|l local Hfl _ IH]; intros [|t total] Hlen Ht;
    try discriminate; cbn [combine map]; constructor.
  - inversion Ht as [|? ? Hft _]; subst.
    destruct l as [l| | |]; try contradiction.
    destruct t as [t| | |]; try contradiction.
    cbn [fst snd]. now apply moments_identity_at.
  - inversion Ht; subst. injection Hlen as Hlen. now apply IH.
Qed.

(** C1, as amended: for finite inputs of equal length, with [cN > 1] and
    [S >= 1], the two-branch formulas satisfy
    [grad_sqr + grad_var / d == total_grad_sqr] in every component, where
    [d] is [S] when [S > 1] and [cN] when [S = 1], on the values computed
    before the clamp; the estimator returns [grad_sqr] clamped at zero, and
    its outputs satisfy the identity whenever the unclamped [grad_sqr] has
    no negative component. *)
Theorem estimator_identity_before_clamp
  (S cN : Z) (local total : list fnum) :
  1 < cN -> 1 <= S -> List.length local = List.length total ->
  Forall is_finite local -> Forall is_finite total ->
  exists grad_var raw_sqr,
    grad_moments S cN local total = Ok (grad_var, raw_sqr)
    /\ estimator S cN local total = Ok (grad_var, clamp0 raw_sqr)
    /\ moments_identity (identity_divisor S cN) grad_var raw_sqr total
    /\ (Forall (fun x => fleb (Fin 0) x = true) raw_sqr ->
        moments_identity (identity_divisor S cN) grad_var (clamp0 raw_sqr)
          total).
Proof.
  intros HcN HS Hlen Hl Ht.
  pose proof (grad_moments_pointwise S cN local total) as Hm.
  specialize (Hm ltac:(lia) Hlen).
  eexists _, _. split; [exact Hm|].
  split; [unfold estimator; rewrite Hm; reflexivity|].
  pose proof (moments_identity_pointwise S cN local total HcN HS Hlen Hl Ht)
    as Hid.
  split; [exact Hid|].
  intros Hpos. now rewrite clamp0_nonneg.
Qed.

(** The amended C1 at two workers whose gradients are 2 and 0: the local
    sum is 4, the squared norm of the mean 1. *)
Lemma estimator_identity_before_clamp_witness :
  1 < 2 /\ 1 <= 1
  /\ exists grad_var raw_sqr,
       grad_moments 1 2 [Fin 4] [Fin 1] = Ok (grad_var, raw_sqr)
       /\ estimator 1 2 [Fin 4] [Fin 1] = Ok (grad_var, clamp0 raw_sqr)
       /\ moments_identity (identity_divisor 1 2) grad_var raw_sqr [Fin 1]
       /\ (Forall (fun x => fleb (Fin 0) x = true) raw_sqr ->
           moments_identity (identity_divisor 1 2) grad_var (clamp0 raw_sqr)
             [Fin 1]).
Proof.
  split; [lia|]. split; [lia|].
  apply (estimator_identity_before_clamp 1 2 [Fin 4] [Fin 1]).
  - lia.
  - lia.
  - reflexivity.
  - repeat constructor.
  - repeat constructor.
Defined.

(** C1 as stated fails on the estimator's outputs: two workers with
    gradients 3 and -1 give the local sum 10 and the squared norm of the
    mean 1; with [S = 1] and [cN = 2] the estimator returns
    [grad_var = 8] and [grad_sqr = 0] (clamped from -3), and
    [0 + 8 / 2] is not [1]. *)
Lemma estimator_identity_fails_when_clamped :
  estimator 1 2 [Fin 10] [Fin 1] = Ok ([Fin 8], [Fin 0])
  /\ ~ moments_identity (identity_divisor 1 2) [Fin 8] [Fin 0] [Fin 1].
Proof.
  split; [reflexivity|].
  intros H. inversion H as [|? ? ? ? Hhd _]; subst.
  cbn in Hhd. discriminate.
Qed.

(** ** Reasoning about methods *)

Lemma bind_inv {A B : Type} (m : M A) (k : A -> M B) (c c' : AdaScale)
  (r : res B) :
  bind m k c = (r, c') ->
  (exists a c1, m c = (Ok a, c1) /\ k a c1 = (r, c'))
  \/ (exists e, m c = (Raise e, c') /\ r = Raise e).
Proof.
  unfold bind. destruct (m c) as [[a|e] c1]; intros H.
  - left. now exists a, c1.
  - right. injection H as <- <-. now exists e.
Qed.

Ltac inv_bind H :=
  let a := fresh "a" in
  let c1 := fresh "c" in
  let e := fresh "e" in
  let H1 := fresh "H" in
  apply bind_inv in H as [(a & c1 & H1 & H)|(e & H1 & ->)].

(** The same when the whole computation is known to return. *)
Ltac inv_bind_ok H :=
  let a := fresh "a" in
  let c1 := fresh "c" in
  let e := fresh "e" in
  let H1 := fresh "H" in
  let Hr := fresh "H" in
  apply bind_inv in H as [(a & c1 & H1 & H)|(e & H1 & Hr)];
  [|discriminate Hr].


Section Frame.

Context {X : Type} (p : AdaScale -> X).

Lemma keeps_bind {A B : Type} (m : M A) (k : A -> M B) :
  keeps p m -> (forall a, keeps p (k a)) -> keeps p (bind m k).
Proof.
  intros Hm Hk c r c' H. inv_bind H.
  - rewrite (Hk _ _ _ _ H). exact (Hm _ _ _ H0).
  - exact (Hm _ _ _ H0).
Qed.

Lemma keeps_ret {A : Type} (a : A) : keeps p (ret a).
Proof. intros c r c' H. now injection H as _ <-. Qed.

Lemma keeps_raise {A : Type} (e : exn) : keeps p (@raise A e).
Proof. intros c r c' H. now injection H as _ <-. Qed.

Lemma keeps_lift {A : Type} (x : res A) : keeps p (lift x).
Proof. intros c r c' H. now injection H as _ <-. Qed.

Lemma keeps_get : keeps p get.
Proof. intros c r c' H. now injection H as _ <-. Qed.

Lemma keeps_modify (f : AdaScale -> AdaScale) :
  (forall c, p (f c) = p c) -> keeps p (modify f).
Proof. intros Hf c r c' H. injection H as _ <-. apply Hf. Qed.

Lemma keeps_assert (b : bool) (line : Z) (msg : string) :
  keeps p (assert_ b line msg).
Proof. destruct b; [apply keeps_ret|apply keeps_raise]. Qed.

Lemma keeps_item0 (a : list fnum) : keeps p (item0 a).
Proof. destruct a; [apply keeps_raise|apply keeps_ret]. Qed.

Lemma keeps_state_item (k : string) : keeps p (state_item k).
Proof.
  intros c r c'. unfold state_item, adascale_state, bind, get, ret, raise.
  destruct (dict_get k _); intros H; now injection H as _ <-.
Qed.

Lemma keeps_avg_lookup (name : string) (pg_idx : option nat) :
  keeps p (avg_lookup name pg_idx).
Proof.
  unfold avg_lookup. apply keeps_bind.
  - apply keeps_state_item.
  - intros v. destruct pg_idx as [i|]; [|apply keeps_ret].
    destruct v as [z|x|a]; try apply keeps_raise.
    destruct (nth_error a i); [apply keeps_ret|apply keeps_raise].
Qed.

Lemma keeps_avg_div (pg_idx : option nat) (x y : fnum) :
  keeps p (avg_div pg_idx x y).
Proof. destruct pg_idx; [apply keeps_ret|apply keeps_lift]. Qed.

End Frame.

Create HintDb frame.
#[local] Hint Resolve keeps_ret keeps_raise keeps_lift keeps_get keeps_assert
  keeps_item0 keeps_state_item keeps_avg_lookup keeps_avg_div : frame.

Ltac frame :=
  repeat first
    [ apply keeps_bind; [|intros ?]
    | solve [auto with frame]
    | apply keeps_modify; intros ?; reflexivity
    | match goal with
      | |- keeps _ (if ?b then _ else _) => destruct b
      | |- keeps _ (match ?x with _ => _ end) => destruct x
      end ].

Lemma gain_keeps_optimizer (np_power : fnum -> fnum -> fnum)
  (pg_idx : option nat) (alpha : fnum) :
  keeps _optimizer (gain np_power pg_idx alpha).
Proof. unfold gain, _grad_var_avg, _grad_sqr_avg, modify_log. frame. Qed.

Lemma detect_outlier_keeps_optimizer (w : list fnum) :
  keeps _optimizer (detect_outlier w).
Proof. unfold detect_outlier. frame. Qed.

Lemma detect_outlier_keeps_flag (w : list fnum) :
  keeps _gain_invalid (detect_outlier w).
Proof. unfold detect_outlier. frame. Qed.

Lemma detect_outlier_keeps_cfg (w : list fnum) : keeps cfg (detect_outlier w).
Proof. unfold detect_outlier. frame. Qed.

Lemma assess_keeps_optimizer (fo : bool) (S cN : Z) (l t : list fnum) :
  keeps _optimizer (assess fo S cN l t).
Proof. unfold assess, _grad_var_avg, _grad_sqr_avg. frame. Qed.

Lemma state_assign_keeps_flag (k : string) (v : pyval) :
  keeps _gain_invalid (state_assign k v).
Proof. unfold state_assign, adascale_state, put_adascale_state. frame. Qed.

Lemma update_avg_keeps_flag (name : string) (value : list fnum) (f : fnum) :
  keeps _gain_invalid (_update_avg name value f).
Proof.
  unfold _update_avg, adascale_state.
  pose proof state_assign_keeps_flag. frame.
Qed.

Lemma bind_get {B : Type} (k : AdaScale -> M B) (c : AdaScale) :
  bind get k c = k c c.
Proof. reflexivity. Qed.

Lemma bind_modify {B : Type} (f : AdaScale -> AdaScale) (k : unit -> M B)
  (c : AdaScale) :
  bind (modify f) k c = k tt (f c).
Proof. reflexivity. Qed.

Lemma bind_ret {A B : Type} (a : A) (k : A -> M B) (c : AdaScale) :
  bind (ret a) k c = k a c.
Proof. reflexivity. Qed.

Lemma bind_assoc {A B C : Type} (m : M A) (k : A -> M B) (h : B -> M C)
  (c : AdaScale) :
  bind (bind m k) h c = bind m (fun a => bind (k a) h) c.
Proof. unfold bind. now destruct (m c) as [[a|e] c1]. Qed.

Ltac msimpl H :=
  repeat first
    [ rewrite bind_get in H
    | rewrite bind_modify in H
    | rewrite bind_ret in H
    | progress unfold modify_log in H ].

(** ** Invalid samples leave the moving averages alone (C2, C6) *)

Lemma finalize_invalid_keeps_optimizer
  (window reduced total : list fnum) (c c' : AdaScale) (r : res unit) :
  finalize window reduced total c = (r, c') ->
  _gain_invalid c' <> 0 ->
  _optimizer c' = _optimizer c.
Proof.
  intros H Hflag. unfold finalize in H.
  inv_bind H; [|now apply (detect_outlier_keeps_optimizer window c _ _ H0)].
  apply detect_outlier_keeps_optimizer in H0 as <-.
  msimpl H.
  inv_bind H.
  2:{ now apply assess_keeps_optimizer in H0. }
  apply assess_keeps_optimizer in H0. cbn in H0.
  msimpl H. simpl (_gain_invalid _) in H.
  destruct (_gain_invalid c1 =? 0) eqn:E.
  - exfalso. apply Hflag. apply Z.eqb_eq in E.
    inv_bind H.
    + msimpl H. injection H as _ <-. simpl.
      assert (K : keeps _gain_invalid
                    (bind (_update_avg "grad_sqr_avg" (snd a0) (_smoothing (cfg c0)))
                       (fun _ => _update_avg "grad_var_avg" (fst a0)
                                   (_smoothing (cfg c0)))))
        by (pose proof update_avg_keeps_flag; frame).
      now rewrite (K _ _ _ H1).
    + assert (K : keeps _gain_invalid
                    (bind (_update_avg "grad_sqr_avg" (snd a0) (_smoothing (cfg c0)))
                       (fun _ => _update_avg "grad_var_avg" (fst a0)
                                   (_smoothing (cfg c0)))))
        by (pose proof update_avg_keeps_flag; frame).
      now rewrite (K _ _ _ H1).
  - msimpl H. injection H as _ <-. simpl. exact H0.
Qed.

Lemma final_callback_invalid_keeps_optimizer
  (reduced total : list fnum) (c c' : AdaScale) (r : res unit) :
  _final_callback reduced total c = (r, c') ->
  _gain_invalid c' <> 0 ->
  _optimizer c' = _optimizer c.
Proof.
  intros H Hflag. unfold _final_callback in H. msimpl H.
  destruct (_local_grad_sqr c) as [window|].
  - msimpl H. inv_bind H.
    + inv_bind H.
      * destruct (negb (a0 =? 0)).
        -- injection H as _ <-.
           apply (keeps_assert _optimizer) in H0.
           apply (keeps_lift _optimizer) in H1.
           rewrite H1, H0. reflexivity.
        -- apply finalize_invalid_keeps_optimizer in H; [|exact Hflag].
           apply (keeps_assert _optimizer) in H0.
           apply (keeps_lift _optimizer) in H1.
           rewrite H, H1, H0. reflexivity.
      * apply (keeps_assert _optimizer) in H0.
        apply (keeps_lift _optimizer) in H1.
        rewrite H1, H0. reflexivity.
    + apply (keeps_assert _optimizer) in H0. rewrite H0. reflexivity.
  - injection H as _ <-. reflexivity.
Qed.


Lemma invalid_state_unchanged
  (reduced total : list fnum) (c c' : AdaScale) (r : res unit) :
  _final_callback reduced total c = (r, c') ->
  _gain_invalid c' <> 0 ->
  adascale (_optimizer c') = adascale (_optimizer c).
Proof.
  intros H Hflag.
  now rewrite (final_callback_invalid_keeps_optimizer _ _ _ _ _ H Hflag).
Qed.

(** C2: after a call of [_final_callback] that leaves the flag set (the
    sample was invalidated, or no sample was taken while it was set), the
    AdaScale state is what it was before the call: [grad_sqr_avg],
    [grad_var_avg] and their [_biased] and [_unbias] accumulators are
    unchanged, and so is every other entry. *)
Theorem invalid_window_keeps_averages
  (reduced total : list fnum) (c c' : AdaScale) (r : res unit) :
  _final_callback reduced total c = (r, c') ->
  _gain_invalid c' <> 0 ->
  adascale (_optimizer c') = adascale (_optimizer c).
Proof.
  exact (invalid_state_unchanged reduced total c c' r).
Qed.

Lemma invalid_window_keeps_averages_witness :
  _final_callback [Fin 12] [Fin 1] after_unit_sample
  = (Ok tt, snd (_final_callback [Fin 12] [Fin 1] after_unit_sample))
  /\ _gain_invalid (snd (_final_callback [Fin 12] [Fin 1] after_unit_sample))
     <> 0
  /\ adascale
       (_optimizer (snd (_final_callback [Fin 12] [Fin 1] after_unit_sample)))
     = adascale (_optimizer after_unit_sample).
Proof.
  assert (H1 : _final_callback [Fin 12] [Fin 1] after_unit_sample
               = (Ok tt, snd (_final_callback [Fin 12] [Fin 1]
                                after_unit_sample)))
    by reflexivity.
  assert (H2 : _gain_invalid
                 (snd (_final_callback [Fin 12] [Fin 1] after_unit_sample))
               <> 0)
    by (vm_compute; discriminate).
  split; [exact H1|]. split; [exact H2|].
  exact (invalid_window_keeps_averages _ _ _ _ _ H1 H2).
Defined.

(** The reasons listed for invalidation each set the flag: unusable
    inputs, and an unstable estimate (outlier, [grad_var <= 0],
    [grad_sqr < 0], NaN or Inf). *)
Lemma assess_sets_flag
  (fo : bool) (S cN : Z) (l t : list fnum) (c c' : AdaScale)
  (r : res (list fnum * list fnum)) :
  assess fo S cN l t c = (r, c') ->
  (non_finite l t = true -> _gain_invalid c' = 1)
  /\ (forall vs, non_finite l t = false -> r = Ok vs ->
      estimator S cN l t = Ok vs
      /\ (unstable fo (fst vs) (snd vs) = true -> _gain_invalid c' = 1)).
Proof.
  intros H. unfold assess in H. msimpl H.
  destruct (non_finite l t) eqn:Enf.
  - split; [intros _|intros vs Hd; discriminate].
    msimpl H.
    assert (K : keeps _gain_invalid
                  (bind (_grad_var_avg (Some O)) (fun v =>
                   bind (_grad_sqr_avg (Some O)) (fun s => ret ([v], [s])))))
      by (unfold _grad_var_avg, _grad_sqr_avg; frame).
    rewrite (K _ _ _ H). simpl. lia.
  - split; [intros Hd; discriminate|intros vs _ Hr].
    inv_bind H; [|discriminate].
    injection H0 as H0 <-.
    destruct (unstable fo (fst a) (snd a)) eqn:Eu; msimpl H;
      injection H as <- <-; injection Hr as <-; (split; [exact H0|]);
      intros Hu; [reflexivity|congruence].
Qed.

Lemma assess_invalid
  (fo : bool) (S cN : Z) (l t : list fnum) (c c' : AdaScale)
  (r : res (list fnum * list fnum)) :
  assess fo S cN l t c = (r, c') ->
  non_finite l t = true
  \/ (exists vs, estimator S cN l t = Ok vs
                 /\ unstable fo (fst vs) (snd vs) = true) ->
  _gain_invalid c' = 1.
Proof.
  intros H Hreason.
  destruct (assess_sets_flag _ _ _ _ _ _ _ _ H) as [Hnf Hest].
  destruct (non_finite l t) eqn:Enf; [now apply Hnf|].
  destruct Hreason as [Hd|(vs & Hvs & Hu)]; [discriminate|].
  unfold assess in H. rewrite bind_modify, Enf in H.
  unfold lift in H. unfold bind at 1 in H. rewrite Hvs in H.
  cbv beta iota in H. rewrite Hu, bind_modify in H.
  now injection H as _ <-.
Qed.

(** Each reason listed for invalidation (inputs holding NaN or Inf, an
    outlier, some [grad_var <= 0], some [grad_sqr < 0], NaN or Inf in the
    estimate) sets the flag and leaves the AdaScale state alone. *)
Lemma listed_reasons_invalidate
  (window reduced total : list fnum) (c c1 c' : AdaScale) (r : res unit)
  (fo : bool) :
  finalize window reduced total c = (r, c') ->
  detect_outlier window c = (Ok fo, c1) ->
  non_finite (reduced_local (cfg c) window reduced)
             (adjusted_total (cfg c) total) = true
  \/ (exists vs,
        estimator (_scale (cfg c)) (_num_grad_samples (cfg c))
          (reduced_local (cfg c) window reduced)
          (adjusted_total (cfg c) total) = Ok vs
        /\ unstable fo (fst vs) (snd vs) = true) ->
  _gain_invalid c' = 1
  /\ adascale (_optimizer c') = adascale (_optimizer c).
Proof.
  intros H Hdet Hreason.
  assert (Hflag : _gain_invalid c' = 1).
  { unfold finalize in H. unfold bind at 1 in H. rewrite Hdet in H.
    rewrite bind_get in H. unfold modify_log in H. rewrite bind_modify in H.
    pose proof (detect_outlier_keeps_cfg _ _ _ _ Hdet) as Hcfg.
    cbn [cfg set_log] in H. rewrite Hcfg in H.
    inv_bind H.
    - pose proof (assess_invalid _ _ _ _ _ _ _ _ H0 Hreason) as Hf.
      rewrite !bind_modify, bind_get in H. simpl (_gain_invalid _) in H.
      rewrite Hf in H. cbn [Z.eqb] in H.
      rewrite bind_ret, !bind_modify in H. now injection H as _ <-.
    - exact (assess_invalid _ _ _ _ _ _ _ _ H0 Hreason). }
  split; [exact Hflag|].
  rewrite (finalize_invalid_keeps_optimizer _ _ _ _ _ _ H); [reflexivity|].
  rewrite Hflag. discriminate.
Qed.

(** A NaN in the reduced sum: the flag is set, the state is what it was,
    and the gain for that step is 1. *)
Example nan_sample_is_discarded :
  let c := set_local_grad_sqr (Some [NaN]) valid_at_scale2 in
  let c' := snd (_final_callback [NaN] [Fin 1] c) in
  fst (_final_callback [NaN] [Fin 1] c) = Ok tt
  /\ _gain_invalid c' = 1
  /\ adascale (_optimizer c') = adascale (_optimizer c)
  /\ fst (gain sample_power None (Fin (1 # 2)) c') = Ok (Fin 1).
Proof. repeat split; reflexivity. Qed.

(** ** The outlier guard (C6) *)










(** ** The gain and the step increment under a set flag (C3, C10) *)

Lemma avg_lookup_ok (name : string) (pg_idx : option nat) (a : list fnum)
  (c : AdaScale) :
  dict_get name (adascale (_optimizer c)) = Some (VArr a) ->
  (forall i, pg_idx = Some i -> (i < List.length a)%nat) ->
  exists x, avg_lookup name pg_idx c = (Ok x, c).
Proof.
  intros Hget Hidx.
  unfold avg_lookup, state_item, adascale_state, bind, get, ret, raise.
  rewrite Hget. destruct pg_idx as [i|].
  - specialize (Hidx i eq_refl). apply nth_error_Some in Hidx.
    destruct (nth_error a i) as [x|]; [|congruence]. now exists x.
  - now eexists.
Qed.

(** C3: whenever the flag is set, [gain] returns exactly [1.0], for a
    group index within the stored vectors or for no index, whatever the
    stored averages are. *)
Theorem gain_is_one_when_invalid
  (np_power : fnum -> fnum -> fnum) (c : AdaScale) (pg_idx : option nat)
  (alpha : fnum) (var_avg sqr_avg : list fnum) :
  _gain_invalid c <> 0 ->
  dict_get "grad_var_avg" (adascale (_optimizer c)) = Some (VArr var_avg) ->
  dict_get "grad_sqr_avg" (adascale (_optimizer c)) = Some (VArr sqr_avg) ->
  (forall i, pg_idx = Some i ->
             (i < List.length var_avg)%nat /\ (i < List.length sqr_avg)%nat) ->
  fst (gain np_power pg_idx alpha c) = Ok (Fin 1).
Proof.
  intros Hflag Hvar Hsqr Hidx.
  destruct (avg_lookup_ok "grad_var_avg" pg_idx var_avg c Hvar) as [v Hv];
    [intros i Hi; now apply Hidx|].
  destruct (avg_lookup_ok "grad_sqr_avg" pg_idx sqr_avg c Hsqr) as [s Hs];
    [intros i Hi; now apply Hidx|].
  unfold gain, _grad_var_avg, _grad_sqr_avg.
  unfold bind at 1. rewrite Hv. unfold bind at 1. rewrite Hs.
  unfold modify_log. rewrite !bind_modify, bind_get.
  simpl (_gain_invalid _).
  apply Z.eqb_neq in Hflag. rewrite Hflag. reflexivity.
Qed.

Lemma gain_is_one_when_invalid_witness :
  _gain_invalid (fresh 2) <> 0
  /\ fst (gain sample_power (Some O) (Fin (1 # 2)) (fresh 2)) = Ok (Fin 1).
Proof.
  assert (H : _gain_invalid (fresh 2) <> 0) by (vm_compute; discriminate).
  split; [exact H|].
  apply (gain_is_one_when_invalid sample_power (fresh 2) (Some O)
           (Fin (1 # 2)) [Fin 0] [Fin 1] H eq_refl eq_refl).
  intros i Hi. injection Hi as <-. split; apply Nat.lt_0_1.
Defined.

(** C10, as amended: when the flag is set and no window is open,
    [get_step_increment] returns 1 and leaves the whole controller as it
    was, so neither [scale_invariant_steps] nor the real-iteration counter
    moves; with a window open it fails the assertion of line 680, again
    without touching the controller.  This covers the controller just
    built by [_setup], whose flag is 1. *)
Theorem step_increment_when_invalid
  (np_power : fnum -> fnum -> fnum) (c : AdaScale) :
  _gain_invalid c <> 0 ->
  get_step_increment np_power c
  = (if window_closed c then Ok 1
     else Raise (AssertionError 680
                   "Don't step without finishing backward phase"),
     c).
Proof.
  intros Hflag. unfold get_step_increment. rewrite bind_get.
  destruct (window_closed c); cbn [assert_].
  - rewrite bind_ret. apply Z.eqb_neq in Hflag. now rewrite Hflag.
  - reflexivity.
Qed.

Lemma step_increment_when_invalid_witness :
  _gain_invalid (fresh 2) <> 0
  /\ get_step_increment sample_power (fresh 2) = (Ok 1, fresh 2).
Proof.
  assert (H : _gain_invalid (fresh 2) <> 0) by (vm_compute; discriminate).
  split; [exact H|].
  exact (step_increment_when_invalid sample_power (fresh 2) H).
Defined.

(** C10 as stated fails while a backward window is open: the flag is set
    (the controller was just built and the first hook has fired), and
    [get_step_increment] raises instead of returning 1. *)
Lemma step_increment_raises_mid_backward :
  _gain_invalid mid_backward <> 0
  /\ fst (get_step_increment sample_power mid_backward)
     = Raise (AssertionError 680
                "Don't step without finishing backward phase")
  /\ fst (get_step_increment sample_power mid_backward) <> Ok 1.
Proof.
  split; [vm_compute; discriminate|].
  split; [reflexivity|]. vm_compute. discriminate.
Qed.

(** ** The window assertions (C9) *)


Lemma quiet_bind {A B : Type} (m : M A) (k : A -> M B) :
  quiet m -> (forall a, quiet (k a)) -> quiet (bind m k).
Proof.
  intros Hm Hk c r c' H. inv_bind H.
  - exact (Hk _ _ _ _ H).
  - exact (Hm _ _ _ H0).
Qed.

Lemma quiet_ret {A : Type} (a : A) : quiet (ret a).
Proof. intros c r c' H. now injection H as <- _. Qed.

Lemma quiet_get : quiet get.
Proof. intros c r c' H. now injection H as <- _. Qed.

Lemma quiet_modify (f : AdaScale -> AdaScale) : quiet (modify f).
Proof. intros c r c' H. now injection H as <- _. Qed.

Lemma quiet_raise {A : Type} (e : exn) :
  is_window_assertion (@Raise A e) = false -> quiet (@raise A e).
Proof. intros He c r c' H. now injection H as <- _. Qed.

Lemma quiet_lift {A : Type} (x : res A) :
  is_window_assertion x = false -> quiet (lift x).
Proof. intros Hx c r c' H. now injection H as <- _. Qed.

Lemma quiet_assert (b : bool) (line : Z) (msg : string) :
  existsb (Z.eqb line) window_assertion_lines = false ->
  quiet (assert_ b line msg).
Proof.
  intros Hl. destruct b; [apply quiet_ret|now apply quiet_raise].
Qed.

Lemma py_div_quiet (x y : fnum) : is_window_assertion (py_div x y) = false.
Proof.
  unfold py_div. destruct y as [b| | |]; try reflexivity.
  now destruct (Qeq_bool b 0).
Qed.

Lemma as_float_quiet (v : pyval) : is_window_assertion (as_float v) = false.
Proof. now destruct v. Qed.

Lemma opt_load_state_dict_quiet (data : StateDict) (o : Optimizer) :
  is_window_assertion (opt_load_state_dict data o) = false.
Proof.
  unfold opt_load_state_dict.
  destruct (negb _); [reflexivity|]. now destruct (existsb _ _).
Qed.

Ltac quiet :=
  repeat first
    [ apply quiet_bind; [|intros ?]
    | apply quiet_ret
    | apply quiet_get
    | apply quiet_modify
    | apply quiet_raise; reflexivity
    | apply quiet_assert; reflexivity
    | apply quiet_lift; first [apply py_div_quiet | apply as_float_quiet
                              | apply opt_load_state_dict_quiet]
    | solve [auto]
    | match goal with
      | |- quiet (if ?b then _ else _) => destruct b
      | |- quiet (match ?x with _ => _ end) => destruct x
      | |- quiet (let x := _ in _) => cbv zeta
      end ].

Lemma state_item_quiet (k : string) : quiet (state_item k).
Proof. unfold state_item, adascale_state. quiet. Qed.

Lemma state_assign_quiet (k : string) (v : pyval) : quiet (state_assign k v).
Proof. unfold state_assign, adascale_state, put_adascale_state. quiet. Qed.

Lemma avg_lookup_quiet (name : string) (pg_idx : option nat) :
  quiet (avg_lookup name pg_idx).
Proof. unfold avg_lookup. pose proof state_item_quiet. quiet. Qed.

Lemma gain_quiet (np_power : fnum -> fnum -> fnum) (pg_idx : option nat)
  (alpha : fnum) :
  quiet (gain np_power pg_idx alpha).
Proof.
  unfold gain, _grad_var_avg, _grad_sqr_avg, modify_log, avg_div.
  pose proof avg_lookup_quiet. quiet.
Qed.

Lemma scale_group_quiet (np_power : fnum -> fnum -> fnum) (pg_idx : nat) :
  quiet (scale_group np_power pg_idx).
Proof.
  unfold scale_group, modify_log. pose proof gain_quiet. quiet.
Qed.

Lemma scale_groups_quiet (np_power : fnum -> fnum -> fnum) (idxs : list nat) :
  quiet (scale_groups np_power idxs).
Proof.
  induction idxs as [|i idxs IH]; cbn [scale_groups].
  - apply quiet_ret.
  - pose proof scale_group_quiet. quiet.
Qed.

Lemma extend_states_quiet (names : list string) : quiet (extend_states names).
Proof.
  induction names as [|name names IH]; cbn [extend_states].
  - apply quiet_ret.
  - pose proof state_item_quiet. pose proof state_assign_quiet. quiet.
Qed.

Lemma copy_items_quiet (items : list (string * pyval)) :
  quiet (copy_items items).
Proof.
  induction items as [|[k v] items IH]; cbn [copy_items].
  - apply quiet_ret.
  - pose proof state_assign_quiet. quiet.
Qed.

Lemma adjust_variance_quiet (prev_scale : fnum) :
  quiet (_adjust_variance prev_scale).
Proof.
  unfold _adjust_variance, adascale_state.
  pose proof state_item_quiet. pose proof state_assign_quiet. quiet.
Qed.


Lemma guarded_open {A : Type} (line : Z) (msg : string)
  (body : AdaScale -> M A) (c : AdaScale) :
  window_closed c = false ->
  guarded line msg body c = (Raise (AssertionError line msg), c).
Proof. intros H. unfold guarded. rewrite bind_get, H. reflexivity. Qed.

Lemma guarded_closed {A : Type} (line : Z) (msg : string)
  (body : AdaScale -> M A) (c : AdaScale) :
  (forall c0, quiet (body c0)) ->
  window_closed c = true ->
  is_window_assertion (fst (guarded line msg body c)) = false.
Proof.
  intros Hq H. unfold guarded. rewrite bind_get, H.
  cbn [assert_]. rewrite bind_ret.
  destruct (body c c) as [r c'] eqn:E. exact (Hq _ _ _ _ E).
Qed.

Ltac as_guarded :=
  match goal with
  | |- context [bind get ?f] =>
      match f with
      | (fun c => bind (assert_ (window_closed c) ?l ?m) (fun _ => @?body c)) =>
          change (bind get f) with (guarded l m body)
      end
  end.

Section WindowAssertions.

Variable np_power : fnum -> fnum -> fnum.
Variable opt_step : Optimizer -> option fnum * Optimizer.
Variable opt_zero_grad : Optimizer -> Optimizer.
Variable scaler_step : Optimizer -> option fnum * Optimizer.
Variable scaler_unscale_ : Optimizer -> Optimizer.
Variable clip_grad_norm_ : fnum -> Optimizer -> fnum * Optimizer.

Lemma step_closed (c : AdaScale) :
  window_closed c = true ->
  is_window_assertion
    (fst (step np_power opt_step scaler_step scaler_unscale_ clip_grad_norm_ c))
  = false.
Proof.
  unfold step. as_guarded. apply guarded_closed.
  intros c0. unfold modify_log. pose proof scale_groups_quiet. quiet.
Qed.

Lemma add_param_group_closed (pg : ParamGroup) (c : AdaScale) :
  window_closed c = true ->
  is_window_assertion (fst (add_param_group pg c)) = false.
Proof.
  unfold add_param_group. as_guarded. apply guarded_closed.
  intros c0. unfold adascale_state. pose proof extend_states_quiet. quiet.
Qed.

Lemma zero_grad_closed (c : AdaScale) :
  window_closed c = true ->
  is_window_assertion (fst (zero_grad opt_zero_grad c)) = false.
Proof.
  unfold zero_grad. as_guarded. apply guarded_closed.
  intros c0. quiet.
Qed.

Lemma state_dict_closed (c : AdaScale) :
  window_closed c = true ->
  is_window_assertion (fst (state_dict c)) = false.
Proof.
  unfold state_dict. as_guarded. apply guarded_closed.
  intros c0. quiet.
Qed.

End WindowAssertions.

Lemma state_item_get (k : string) (v : pyval) (c : AdaScale) :
  dict_get k (adascale (_optimizer c)) = Some v ->
  state_item k c = (Ok v, c).
Proof.
  intros H. unfold state_item, adascale_state, bind, get, ret.
  now rewrite H.
Qed.

Lemma load_state_dict_open (data : StateDict) (c : AdaScale) (z : Z) :
  dict_get "scale" (adascale (_optimizer c)) = Some (VInt z) ->
  window_closed c = false ->
  fst (load_state_dict data c)
  = Raise (AssertionError 804 "Don't load checkpoint in backward")
  /\ _optimizer (snd (load_state_dict data c)) = _optimizer c.
Proof.
  intros Hscale Hopen. destruct (load_state_dict data c) as [r c'] eqn:E.
  cbn [fst snd]. unfold load_state_dict in E.
  inv_bind E; rewrite (state_item_get _ _ _ Hscale) in H; [|discriminate].
  injection H as <- <-.
  inv_bind E; [|discriminate]. injection H as <- <-.
  rewrite bind_get in E.
  destruct (feqb (of_Z z) (of_Z (_scale (cfg c)))).
  - rewrite bind_modify, bind_get in E.
    change (window_closed (set_reset_optimizer_state_on_restart false c))
      with (window_closed c) in E.
    rewrite Hopen in E. injection E as <- <-. split; reflexivity.
  - rewrite bind_ret, bind_get, Hopen in E. injection E as <- <-.
    split; reflexivity.
Qed.

Lemma load_state_dict_closed (data : StateDict) (c : AdaScale) :
  window_closed c = true ->
  is_window_assertion (fst (load_state_dict data c)) = false.
Proof.
  intros Hclosed. destruct (load_state_dict data c) as [r c'] eqn:E.
  cbn [fst]. unfold load_state_dict in E.
  inv_bind E; [|now apply state_item_quiet in H].
  apply (keeps_state_item window_closed) in H. rewrite <- H in Hclosed.
  clear H. inv_bind E.
  2:{ injection H as H _. destruct a; try discriminate H.
      injection H as <-. reflexivity. }
  injection H as _ <-. rewrite bind_get in E.
  assert (Hrest : exists c2, window_closed c2 = true /\
    bind get (fun c =>
      bind (assert_ (window_closed c) 804 "Don't load checkpoint in backward")
        (fun _ =>
      bind (copy_items (sd_adascale data)) (fun _ =>
      bind (if negb (feqb a0 (of_Z (_scale (cfg c0)))) then
              bind (_adjust_variance a0) (fun _ =>
              bind adascale_state (fun d =>
              ret (shared_after_adjust
                     (_reset_optimizer_state_on_restart c) d data)))
            else ret data) (fun data =>
      if _reset_optimizer_state_on_restart c then ret data
      else
        bind get (fun c =>
        bind (lift (opt_load_state_dict data (_optimizer c))) (fun o =>
        bind (modify (set_optimizer o)) (fun _ => ret data))))))) c2
    = (r, c')).
  { destruct (feqb a0 (of_Z (_scale (cfg c0)))).
    - rewrite bind_modify in E. eexists. split; [|exact E]. exact Hclosed.
    - rewrite bind_ret in E. eexists. split; [|exact E]. exact Hclosed. }
  destruct Hrest as (c2 & Hc2 & E2).
  rewrite bind_get, Hc2 in E2. cbn [assert_] in E2. rewrite bind_ret in E2.
  match type of E2 with
  | ?m _ = _ => assert (Q : quiet m)
  end.
  { unfold adascale_state.
    pose proof copy_items_quiet. pose proof adjust_variance_quiet. quiet. }
  exact (Q _ _ _ E2).
Qed.

(** C9: while a backward window is open, [step], [state_dict],
    [load_state_dict], [zero_grad] and [add_param_group] each fail with
    their assertion on [_local_grad_sqr] and leave the wrapped optimizer,
    hence the run state, untouched; with no window open none of these
    assertions fires. *)
Theorem window_assertions
  (np_power : fnum -> fnum -> fnum)
  (opt_step : Optimizer -> option fnum * Optimizer)
  (opt_zero_grad : Optimizer -> Optimizer)
  (scaler_step : Optimizer -> option fnum * Optimizer)
  (scaler_unscale_ : Optimizer -> Optimizer)
  (clip_grad_norm_ : fnum -> Optimizer -> fnum * Optimizer)
  (c : AdaScale) (data : StateDict) (pg : ParamGroup) (z : Z) :
  dict_get "scale" (adascale (_optimizer c)) = Some (VInt z) ->
  (window_closed c = false ->
   step np_power opt_step scaler_step scaler_unscale_ clip_grad_norm_ c
   = (Raise (AssertionError 713
               "Don't step without finishing backward phase"), c)
   /\ state_dict c
      = (Raise (AssertionError 786 "Don't checkpoint in backward"), c)
   /\ (fst (load_state_dict data c)
       = Raise (AssertionError 804 "Don't load checkpoint in backward")
       /\ _optimizer (snd (load_state_dict data c)) = _optimizer c)
   /\ zero_grad opt_zero_grad c
      = (Raise (AssertionError 774 "Don't zero_grad in backward"), c)
   /\ add_param_group pg c
      = (Raise (AssertionError 753
                  "Can't add parameter group during backward"), c))
  /\ (window_closed c = true ->
      is_window_assertion
        (fst (step np_power opt_step scaler_step scaler_unscale_
                clip_grad_norm_ c)) = false
      /\ is_window_assertion (fst (state_dict c)) = false
      /\ is_window_assertion (fst (load_state_dict data c)) = false
      /\ is_window_assertion (fst (zero_grad opt_zero_grad c)) = false
      /\ is_window_assertion (fst (add_param_group pg c)) = false).
Proof.
  intros Hscale. split; intros Hw.
  - split; [unfold step; as_guarded; now apply guarded_open|].
    split; [unfold state_dict; as_guarded; now apply guarded_open|].
    split; [now apply (load_state_dict_open data c z)|].
    split; [unfold zero_grad; as_guarded; now apply guarded_open|].
    unfold add_param_group; as_guarded; now apply guarded_open.
  - split; [now apply step_closed|].
    split; [now apply state_dict_closed|].
    split; [now apply load_state_dict_closed|].
    split; [now apply zero_grad_closed|].
    now apply add_param_group_closed.
Qed.

Lemma window_assertions_witness :
  dict_get "scale" (adascale (_optimizer mid_backward)) = Some (VInt 1)
  /\ window_closed mid_backward = false
  /\ step sample_power sample_opt_step sample_scaler_step sample_unscale_
       sample_clip mid_backward
     = (Raise (AssertionError 713
                 "Don't step without finishing backward phase"),
        mid_backward).
Proof.
  split; [reflexivity|]. split; [reflexivity|].
  exact (proj1
           (proj1
              (window_assertions sample_power sample_opt_step
                 sample_zero_grad sample_scaler_step sample_unscale_
                 sample_clip mid_backward checkpoint_scale4 sample_group 1
                 eq_refl)
              eq_refl)).
Defined.

(** ** Checkpoints (C4, C5) *)

Lemma controller_eta (c : AdaScale) :
  set_optimizer (set_adascale (adascale (_optimizer c)) (_optimizer c)) c = c.
Proof. destruct c as [k o]. now destruct o. Qed.

Lemma state_assign_spec (k : string) (v : pyval) (c : AdaScale) :
  state_assign k v c
  = (Ok tt,
     set_optimizer
       (set_adascale (dict_set k v (adascale (_optimizer c))) (_optimizer c))
       c).
Proof. reflexivity. Qed.

(** The copying loop always returns, and touches nothing but the entries
    of the AdaScale state. *)
Lemma copy_items_spec (items : list (string * pyval)) (c : AdaScale) :
  exists d,
    copy_items items c
    = (Ok tt, set_optimizer (set_adascale d (_optimizer c)) c).
Proof.
  revert c. induction items as [|[k v] items IH]; intros c;
    cbn [copy_items].
  - exists (adascale (_optimizer c)). now rewrite controller_eta.
  - rewrite bind_get.
    destruct (_reset_optimizer_state_on_restart c && is_avg_key k).
    + rewrite bind_ret. apply IH.
    + unfold bind at 1. rewrite state_assign_spec.
      destruct (IH (set_optimizer
                      (set_adascale (dict_set k v (adascale (_optimizer c)))
                         (_optimizer c)) c)) as [d Hd].
      exists d. rewrite Hd. reflexivity.
Qed.

(** When the state records the configured scale before the load (as it
    does in a controller that [_setup] has just built), [load_state_dict]
    never calls [_adjust_variance]: the checkpoint is handed as it is to
    the wrapped optimizer. *)
Lemma load_state_dict_same_scale
  (data : StateDict) (c : AdaScale) (v : pyval) (prev : fnum) :
  dict_get "scale" (adascale (_optimizer c)) = Some v ->
  as_float v = Ok prev ->
  feqb prev (of_Z (_scale (cfg c))) = true ->
  window_closed c = true ->
  exists d,
    load_state_dict data c
    = match opt_load_state_dict data (_optimizer c) with
      | Ok o =>
          (Ok data,
           set_optimizer o (set_reset_optimizer_state_on_restart false c))
      | Raise e =>
          (Raise e,
           set_optimizer (set_adascale d (_optimizer c))
             (set_reset_optimizer_state_on_restart false c))
      end.
Proof.
  intros Hscale Hprev Hsame Hclosed.
  destruct (copy_items_spec (sd_adascale data)
              (set_reset_optimizer_state_on_restart false c)) as [d Hd].
  exists d.
  destruct (load_state_dict data c) as [r c'] eqn:E.
  unfold load_state_dict in E.
  inv_bind E; rewrite (state_item_get _ _ _ Hscale) in H; [|discriminate].
  injection H as <- <-.
  inv_bind E; unfold lift in H; rewrite Hprev in H; [|discriminate].
  injection H as <- <-.
  rewrite bind_get, Hsame, bind_modify, bind_get in E.
  change (window_closed (set_reset_optimizer_state_on_restart false c))
    with (window_closed c) in E.
  rewrite Hclosed in E. cbn [assert_ negb] in E. rewrite bind_ret in E.
  unfold bind at 1 in E. rewrite Hd in E. rewrite bind_ret in E.
  cbn [_reset_optimizer_state_on_restart
         set_reset_optimizer_state_on_restart] in E.
  rewrite bind_get in E. unfold lift, bind, modify, ret in E.
  change (opt_load_state_dict data
            (_optimizer
               (set_optimizer
                  (set_adascale d
                     (_optimizer
                        (set_reset_optimizer_state_on_restart false c)))
                  (set_reset_optimizer_state_on_restart false c))))
    with (opt_load_state_dict data (_optimizer c)) in E.
  destruct (opt_load_state_dict data (_optimizer c)) as [o|e];
    injection E as <- <-; reflexivity.
Qed.

Lemma combine_self_params (groups : list ParamGroup) :
  existsb
    (fun p => negb (Nat.eqb (List.length (params (fst p)))
                            (List.length (params (snd p)))))
    (combine groups groups) = false.
Proof.
  induction groups as [|g groups IH]; [reflexivity|].
  cbn [combine existsb fst snd]. now rewrite Nat.eqb_refl, IH.
Qed.

Lemma combine_self_groups (groups : list ParamGroup) :
  map (fun p => {| lr := lr (snd p); params := params (fst p) |})
      (combine groups groups) = groups.
Proof.
  induction groups as [|g groups IH]; [reflexivity|].
  cbn [combine map fst snd]. rewrite IH. now destruct g.
Qed.

Lemma opt_load_own_state_dict (o : Optimizer) :
  opt_load_state_dict (opt_state_dict o) o = Ok o.
Proof.
  unfold opt_load_state_dict, opt_state_dict.
  cbn [sd_param_groups sd_adascale sd_buffers].
  rewrite Nat.eqb_refl. cbn [negb].
  rewrite combine_self_params, combine_self_groups. now destruct o.
Qed.

Lemma feqb_of_Z_refl (z : Z) : feqb (of_Z z) (of_Z z) = true.
Proof. apply Qeq_bool_refl. Qed.

(** C5: with no window open and the state recording the configured scale,
    saving and restoring at once gives back the same run state:
    the whole wrapped optimizer (every entry of the AdaScale state, the
    parameter groups and the buffers) is what it was; the controller
    differs at most in its reset-on-restart switch, which is off. *)
Theorem checkpoint_round_trip (c : AdaScale) :
  window_closed c = true ->
  dict_get "scale" (adascale (_optimizer c)) = Some (VInt (_scale (cfg c))) ->
  exists data c',
    state_dict c = (Ok data, c)
    /\ load_state_dict data c = (Ok data, c')
    /\ _optimizer c' = _optimizer c
    /\ adascale (_optimizer c') = adascale (_optimizer c)
    /\ c' = set_reset_optimizer_state_on_restart false c.
Proof.
  intros Hclosed Hscale.
  exists (opt_state_dict (_optimizer c)),
         (set_reset_optimizer_state_on_restart false c).
  split.
  { unfold state_dict. rewrite bind_get, Hclosed. reflexivity. }
  destruct (load_state_dict_same_scale (opt_state_dict (_optimizer c)) c
              _ _ Hscale eq_refl (feqb_of_Z_refl _) Hclosed) as [d Hd].
  rewrite opt_load_own_state_dict in Hd. rewrite Hd.
  assert (E : set_optimizer (_optimizer c)
                (set_reset_optimizer_state_on_restart false c)
              = set_reset_optimizer_state_on_restart false c)
    by now destruct c.
  rewrite E. repeat split; reflexivity.
Qed.

Lemma checkpoint_round_trip_witness :
  window_closed (fresh 4) = true
  /\ exists data c',
       state_dict (fresh 4) = (Ok data, fresh 4)
       /\ load_state_dict data (fresh 4) = (Ok data, c')
       /\ _optimizer c' = _optimizer (fresh 4)
       /\ adascale (_optimizer c') = adascale (_optimizer (fresh 4))
       /\ c' = set_reset_optimizer_state_on_restart false (fresh 4).
Proof.
  split; [reflexivity|].
  exact (checkpoint_round_trip (fresh 4) eq_refl eq_refl).
Defined.

(** C4 fails on the code: a controller built for scale 2 restores a
    checkpoint written at scale 4.  [prev_scale] is read from the
    controller's own state before the checkpoint is copied, so it is 2,
    equal to the configured scale; [_adjust_variance] is not called and
    [grad_var_avg] stays [8] where the claim has [8 * 4 / 2 = 16]. *)
Theorem restore_skips_rescale :
  _scale (cfg (fresh 4)) = 2
  /\ dict_get "scale" (sd_adascale checkpoint_scale4) = Some (VInt 4)
  /\ dict_get "grad_var_avg" (sd_adascale checkpoint_scale4)
     = Some (VArr [Fin 8])
  /\ fst (load_state_dict checkpoint_scale4 (fresh 4)) = Ok checkpoint_scale4
  /\ dict_get "grad_var_avg"
       (adascale
          (_optimizer (snd (load_state_dict checkpoint_scale4 (fresh 4)))))
     = Some (VArr [Fin 8]).
Proof. repeat split; reflexivity. Qed.

(** The same for every checkpoint and every controller that [_setup] has
    just built: the restored state is the checkpoint's, unscaled. *)
Lemma restore_into_fresh_controller
  (k : Config) (reset : bool) (batch : Z) (groups : list ParamGroup)
  (bufs : list fnum) (data : StateDict) (c' : AdaScale) :
  load_state_dict data (_setup k reset batch groups bufs None)
  = (Ok data, c') ->
  adascale (_optimizer c') = sd_adascale data.
Proof.
  intros H.
  destruct (load_state_dict_same_scale data
              (_setup k reset batch groups bufs None)
              (VInt (_scale k)) (of_Z (_scale k)) eq_refl eq_refl
              (feqb_of_Z_refl _) eq_refl) as [d Hd].
  rewrite Hd in H. clear Hd.
  unfold opt_load_state_dict in H.
  destruct (negb _) in H; [discriminate|].
  destruct (existsb _ _) in H; [discriminate|].
  injection H as <-. reflexivity.
Qed.

(** The rescaling is reached only when the state already records another
    scale before the load, here because the optimizer state held the
    checkpoint when the controller was built. *)
Example rescale_when_state_preloaded :
  dict_get "grad_var_avg"
    (adascale
       (_optimizer
          (snd (load_state_dict checkpoint_scale4
                  (_setup (sample_config 4) false 64 [sample_group] []
                     (Some (sd_adascale checkpoint_scale4)))))))
  = Some (VArr [Fin (32 # 2)]).
Proof. reflexivity. Qed.

(** ** The optimizer step and new parameter groups (C7, C8) *)

(** C7 fails on the code in its last part: without a scaler, [step] calls
    [self._optimizer.step] and drops what it returns, so [step] returns
    [None] whatever the wrapped optimizer returns. *)
Theorem step_drops_optimizer_result
  (np_power : fnum -> fnum -> fnum)
  (opt_step : Optimizer -> option fnum * Optimizer)
  (scaler_step : Optimizer -> option fnum * Optimizer)
  (scaler_unscale_ : Optimizer -> Optimizer)
  (clip_grad_norm_ : fnum -> Optimizer -> fnum * Optimizer)
  (c c' : AdaScale) (r : option fnum) :
  has_scaler (cfg c) = false ->
  step np_power opt_step scaler_step scaler_unscale_ clip_grad_norm_ c
  = (Ok r, c') ->
  r = None.
Proof.
  intros Hs H. unfold step in H. rewrite bind_get in H.
  inv_bind_ok H. inv_bind_ok H. unfold modify_log in H.
  rewrite bind_modify, Hs in H.
  rewrite bind_assoc, bind_get in H. cbv zeta in H.
  rewrite bind_assoc, bind_modify, bind_ret, bind_modify in H.
  now injection H as <- _.
Qed.

(** The wrapped optimizer returns the loss 7 of its closure; [step]
    returns [None]. *)
Lemma step_drops_optimizer_result_witness :
  has_scaler (cfg (fresh 2)) = false
  /\ fst (sample_opt_step (_optimizer (fresh 2))) = Some (Fin 7)
  /\ fst (step sample_power sample_opt_step sample_scaler_step
            sample_unscale_ sample_clip (fresh 2))
     = Ok None.
Proof.
  split; [reflexivity|]. split; [reflexivity|].
  destruct (step sample_power sample_opt_step sample_scaler_step
              sample_unscale_ sample_clip (fresh 2)) as [[r|e] c'] eqn:E.
  - cbn [fst]. f_equal.
    exact (step_drops_optimizer_result sample_power sample_opt_step
             sample_scaler_step sample_unscale_ sample_clip (fresh 2) c' r
             eq_refl E).
  - vm_compute in E. discriminate E.
Defined.

(** C8 fails on the code: in a controller that [_setup] has just built,
    the first key of the AdaScale state is ["scale_invariant_steps"], which
    fails the assertion of line 761 on the names of the keys.
    [add_param_group] raises after the wrapped optimizer has taken the new
    group, and no state vector is extended. *)
Theorem add_param_group_raises
  (k : Config) (reset : bool) (batch : Z) (groups : list ParamGroup)
  (bufs : list fnum) (pg : ParamGroup) :
  fst (add_param_group pg (_setup k reset batch groups bufs None))
  = Raise (AssertionError 761 "scale_invariant_steps")
  /\ adascale
       (_optimizer
          (snd (add_param_group pg (_setup k reset batch groups bufs None))))
     = adascale (_optimizer (_setup k reset batch groups bufs None))
  /\ param_groups
       (_optimizer
          (snd (add_param_group pg (_setup k reset batch groups bufs None))))
     = groups ++ [pg].
Proof. repeat split; reflexivity. Qed.

(** The same from any state whose keys include one that is neither a
    [grad_sqr_avg] nor a [grad_var_avg] key: the loop never completes. *)
Lemma extend_states_never_completes (names : list string) (c : AdaScale) :
  existsb
    (fun name => negb (String.prefix "grad_sqr_avg" name
                       || String.prefix "grad_var_avg" name)) names = true ->
  fst (extend_states names c) <> Ok tt.
Proof.
  revert c. induction names as [|name names IH]; intros c Hbad;
    [discriminate|].
  cbn [existsb] in Hbad. cbn [extend_states].
  destruct (String.prefix "grad_sqr_avg" name
            || String.prefix "grad_var_avg" name) eqn:Ename.
  - cbn [negb orb] in Hbad. cbn [assert_]. rewrite bind_ret.
    destruct (bind _ _ c) as [r c'] eqn:E; cbn [fst].
    inv_bind E; [|discriminate].
    specialize (IH c0 Hbad). rewrite E in IH. exact IH.
  - cbn [assert_]. discriminate.
Qed.

(** Once the loop works on a state that has only the vectors it expects,
    it does extend them: [1] for [grad_sqr_avg], [0] for the others. *)
Example extend_states_on_vectors :
  let c :=
    set_optimizer
      {| param_groups := [sample_group; sample_group];
         adascale := [("grad_sqr_avg"%string, VArr [Fin 3]);
                      ("grad_var_avg"%string, VArr [Fin 8]);
                      ("grad_var_avg_biased"%string, VArr [Fin 4])];
         buffers := [] |} (fresh 2) in
  fst (extend_states (dict_keys (adascale (_optimizer c))) c) = Ok tt
  /\ adascale
       (_optimizer (snd (extend_states (dict_keys (adascale (_optimizer c))) c)))
     = [("grad_sqr_avg"%string, VArr [Fin 3; Fin 1]);
        ("grad_var_avg"%string, VArr [Fin 8; Fin 0]);
        ("grad_var_avg_biased"%string, VArr [Fin 4; Fin 0])].
Proof. split; reflexivity. Qed.

(** The rest of C7 holds: the wrapped optimizer runs with each learning
    rate multiplied by the gain of its group, and the original rates are
    back afterwards. *)

Lemma set_lr_back (x : fnum) (g : ParamGroup) : set_lr (lr g) (set_lr x g) = g.
Proof. now destruct g. Qed.

Lemma assign_lr_firstn (i : nat) (x : fnum) (groups : list ParamGroup) :
  firstn i (assign_lr i x groups) = firstn i groups.
Proof.
  revert i. induction groups as [|g groups IH]; intros [|i];
    cbn [assign_lr firstn]; try reflexivity.
  now rewrite IH.
Qed.

Lemma assign_lr_skipn (i : nat) (x : fnum) (g : ParamGroup)
  (groups : list ParamGroup) :
  nth_error groups i = Some g ->
  skipn i (assign_lr i x groups) = set_lr x g :: skipn (S i) groups.
Proof.
  revert i. induction groups as [|g0 groups IH]; intros [|i] H;
    cbn [assign_lr skipn nth_error] in *; try discriminate.
  - now injection H as ->.
  - now apply IH.
Qed.

Lemma assign_lr_nth (i : nat) (x : fnum) (g : ParamGroup)
  (groups : list ParamGroup) :
  nth_error groups i = Some g ->
  nth_error (assign_lr i x groups) i = Some (set_lr x g).
Proof.
  revert i. induction groups as [|g0 groups IH]; intros [|i] H;
    cbn [assign_lr nth_error] in *; try discriminate.
  - now injection H as ->.
  - now apply IH.
Qed.

Lemma skipn_nth (i : nat) (g : ParamGroup) (groups : list ParamGroup) :
  nth_error groups i = Some g -> skipn i groups = g :: skipn (S i) groups.
Proof.
  revert i. induction groups as [|g0 groups IH]; intros [|i] H;
    cbn [skipn nth_error] in *; try discriminate.
  - now injection H as ->.
  - now apply IH.
Qed.

Lemma firstn_S_eq (i : nat) (a b : list ParamGroup) :
  firstn (S i) a = firstn (S i) b ->
  firstn i a = firstn i b /\ nth_error a i = nth_error b i.
Proof.
  revert a b. induction i as [|i IH]; intros [|x a] [|y b] H;
    cbn [firstn nth_error] in *; try discriminate; try (split; reflexivity).
  - injection H as ->. split; reflexivity.
  - injection H as -> H. destruct (IH a b H) as [H1 H2].
    rewrite H1. split; [reflexivity|exact H2].
Qed.

Lemma scale_group_spec (np_power : fnum -> fnum -> fnum) (i : nat)
  (c c' : AdaScale) (o : fnum) :
  scale_group np_power i c = (Ok o, c') ->
  exists g x,
    nth_error (param_groups (_optimizer c)) i = Some g
    /\ o = lr g
    /\ param_groups (_optimizer c')
       = assign_lr i x (param_groups (_optimizer c)).
Proof.
  intros H. unfold scale_group in H. rewrite bind_get in H.
  destruct (nth_error (param_groups (_optimizer c)) i) as [g|] eqn:Eg;
    [|discriminate].
  inv_bind_ok H. apply gain_keeps_optimizer in H0.
  rewrite bind_modify in H. inv_bind_ok H. injection H as <- <-.
  exists g, (fmul a (lr g)). split; [reflexivity|]. split; [reflexivity|].
  assert (K : keeps _optimizer
    (if Nat.eqb i 0 then
       bind (modify_log (set_effective_lr (fmul a (lr g)))) (fun _ =>
       bind get (fun c =>
       bind (lift (py_div (lr g) (of_Z (_current_batch_size c))))
         (fun curr =>
       match _temperature_ratio (log c) with
       | None => modify_log (set_temperature_ratio (Some curr))
       | Some ratio =>
           bind (lift (py_div curr ratio)) (fun q =>
           bind (modify_log
                   (fun l => set_temperature (fmul (_temperature l) q) l))
             (fun _ => modify_log (set_temperature_ratio (Some curr))))
       end)))
     else ret tt)) by (unfold modify_log; frame).
  rewrite (K _ _ _ H1). cbn [_optimizer set_optimizer param_groups
                               set_param_groups].
  now rewrite H0.
Qed.

Lemma scale_groups_spec (np_power : fnum -> fnum -> fnum) (n i : nat)
  (c c' : AdaScale) (os : list fnum) :
  scale_groups np_power (seq i n) c = (Ok os, c') ->
  firstn i (param_groups (_optimizer c'))
  = firstn i (param_groups (_optimizer c))
  /\ restore_lrs os (skipn i (param_groups (_optimizer c')))
     = skipn i (param_groups (_optimizer c)).
Proof.
  revert i c c' os. induction n as [|n IH]; intros i c c' os H;
    cbn [seq scale_groups] in H.
  - injection H as <- <-. split; [reflexivity|]. now destruct (skipn i _).
  - inv_bind_ok H. inv_bind_ok H. injection H as <- <-.
    destruct (scale_group_spec _ _ _ _ _ H0) as (g & x & Hg & -> & Hc0).
    destruct (IH _ _ _ _ H1) as [Hfirst Hrest].
    rewrite Hc0 in Hfirst, Hrest.
    apply firstn_S_eq in Hfirst as [Hfirst Hnth].
    rewrite assign_lr_firstn in Hfirst. split; [exact Hfirst|].
    pose proof (assign_lr_nth i x g _ Hg) as Hi.
    rewrite Hi in Hnth.
    rewrite (skipn_nth i _ _ Hnth). cbn [restore_lrs].
    rewrite set_lr_back, Hrest.
    assert (Hsk : skipn (S i) (assign_lr i x (param_groups (_optimizer c)))
                  = skipn (S i) (param_groups (_optimizer c))).
    { pose proof (assign_lr_skipn i x g _ Hg) as Hs.
      rewrite (skipn_nth i _ _ Hi) in Hs. now injection Hs. }
    rewrite Hsk. symmetry. now apply skipn_nth.
Qed.

Lemma step_restores_learning_rates
  (np_power : fnum -> fnum -> fnum)
  (opt_step : Optimizer -> option fnum * Optimizer)
  (scaler_step : Optimizer -> option fnum * Optimizer)
  (scaler_unscale_ : Optimizer -> Optimizer)
  (clip_grad_norm_ : fnum -> Optimizer -> fnum * Optimizer)
  (c c' : AdaScale) (r : option fnum) :
  has_scaler (cfg c) = false ->
  (forall o, param_groups (snd (opt_step o)) = param_groups o) ->
  step np_power opt_step scaler_step scaler_unscale_ clip_grad_norm_ c
  = (Ok r, c') ->
  param_groups (_optimizer c') = param_groups (_optimizer c).
Proof.
  intros Hs Hopt H. unfold step in H. rewrite bind_get in H.
  inv_bind_ok H. apply (keeps_assert _optimizer) in H0.
  inv_bind_ok H. rewrite <- H0.
  rewrite <- H0 in H1.
  destruct (scale_groups_spec _ _ _ _ _ _ H1) as [_ Hrest].
  cbn [skipn] in Hrest.
  unfold modify_log in H. rewrite bind_modify, Hs in H.
  rewrite bind_assoc, bind_get in H. cbv zeta in H.
  rewrite bind_assoc, bind_modify, bind_ret, bind_modify in H.
  injection H as _ <-.
  cbn [_optimizer set_optimizer param_groups set_param_groups set_log].
  now rewrite Hopt.
Qed.

Example step_runs_with_scaled_rates :
  fst (gain sample_power (Some O) (Fin (1 # 2)) valid_at_scale2)
  = Ok (Fin (22 # 14))
  /\ map lr (param_groups (_optimizer valid_at_scale2)) = [Fin (1 # 10)]
  /\ buffers
       (_optimizer
          (snd (step sample_power recording_opt_step sample_scaler_step
                  sample_unscale_ sample_clip valid_at_scale2)))
     = [Fin (22 # 140)]
  /\ map lr
       (param_groups
          (_optimizer
             (snd (step sample_power recording_opt_step sample_scaler_step
                     sample_unscale_ sample_clip valid_at_scale2))))
     = [Fin (1 # 10)].
Proof. repeat split; reflexivity. Qed.
